(** * install_opencv.py: a shallow embedding and its checked properties

    The script is a linear pipeline of console output, directory
    operations and external commands.  It is embedded as a small
    log-and-exception monad over a [world] of operating-system answers:
    every [print], [input], [os.chdir], [os.makedirs] and
    [subprocess.call] of the script appends one [event] to the log, and the
    three ways a Python computation can end (fall through, [sys.exit()],
    uncaught exception) are the three constructors of [result]. *)

From Stdlib Require Import String Ascii List Bool Arith ZArith Lia.
Import ListNotations.
Local Open Scope string_scope.
Local Open Scope list_scope.

(* ================================================================== *)
(** * Python strings *)
(* ================================================================== *)

(** Strings are sequences of characters with codes 0..255. *)

Definition nl : string := String (ascii_of_nat 10) "".

(** [str.isspace] on one character, restricted to codes below 256. *)
Definition is_space (c : ascii) : bool :=
  let n := nat_of_ascii c in
  (((9 <=? n) && (n <=? 13)) || ((28 <=? n) && (n <=? 32))
   || (n =? 133) || (n =? 160))%nat.

(** [str.lower] on one character, restricted to codes below 256. *)
Definition lower (c : ascii) : ascii :=
  let n := nat_of_ascii c in
  if (((65 <=? n) && (n <=? 90))
      || ((192 <=? n) && (n <=? 222) && negb (n =? 215)))%nat
  then ascii_of_nat (n + 32) else c.

Fixpoint has_space (s : string) : bool :=
  match s with
  | EmptyString => false
  | String c s' => is_space c || has_space s'
  end.

(** [command.split()]: the maximal runs of non-whitespace characters.
    [cur] is the word being read. *)
Fixpoint split_from (cur : string) (s : string) : list string :=
  match s with
  | EmptyString => match cur with EmptyString => [] | _ => [cur] end
  | String c s' =>
      if is_space c
      then match cur with
           | EmptyString => split_from "" s'
           | _ => cur :: split_from "" s'
           end
      else split_from (cur ++ String c "")%string s'
  end.

Definition split (s : string) : list string := split_from "" s.

(** [str.lstrip]: the first character of a trimmed line is the first
    character of this.  Used only to state the specification's "trimmed
    input"; the script itself never strips. *)
Fixpoint lstrip (s : string) : string :=
  match s with
  | EmptyString => EmptyString
  | String c s' => if is_space c then lstrip s' else s
  end.

(** [str(b)] for a bool. *)
Definition str_bool (b : bool) : string := if b then "True" else "False".

(** [path.endswith(sep)] *)
Fixpoint endswith_sep (path : string) : bool :=
  match path with
  | EmptyString => false
  | String c EmptyString => Ascii.eqb c "/"
  | String _ rest => endswith_sep rest
  end.

(** [os.path.join(a, b)] of posixpath, two components. *)
Definition path_join (a b : string) : string :=
  match b with
  | String "/" _ => b
  | _ => match a with
         | EmptyString => b
         | _ => if endswith_sep a then (a ++ b)%string
                else (a ++ "/" ++ b)%string
         end
  end.

(* ================================================================== *)
(** * Events, exceptions, the world *)
(* ================================================================== *)

Inductive exn : Type :=
| EOFError
| IndexError
| TypeError
| AttributeError
| FileExistsError
| OSError (detail : string)
| JSONDecodeError (detail : string).

Inductive event : Type :=
| Print (line : string)            (* print(line) *)
| Input (prompt : string)          (* input(prompt) *)
| Chdir (dirpath : string)         (* os.chdir(dirpath), attempted *)
| Makedirs (dirpath : string)      (* os.makedirs(dirpath), attempted *)
| Subprocess (argv : list string). (* subprocess.call(argv), attempted *)

(** What [json.load] hands back, as far as the script looks at it: a dict
    (in iteration order, each value carried as the text [format] renders
    for it), another value that has a [len] (list, string), or a value
    without one (number, bool, null). *)
Inductive pyvalue : Type :=
| PyDict (entries : list (string * string))
| PySized (length : nat)
| PyUnsized.

(** The answers of the operating system.  An answer may depend on the log
    so far (most recent event first): external commands change the file
    system behind the script's back. *)
Record world : Type := {
  getcwd : string;
  realpath : string -> string;
  format_exc : exn -> string;
  read_line : list event -> exn + string;
  os_chdir : list event -> string -> option exn;
  os_makedirs : list event -> string -> option exn;
  stat_ok : list event -> string -> bool;
  json_load : list event -> string -> exn + pyvalue;
  subprocess_call : list event -> list string -> option exn
}.

(** How a computation ends: it falls through with a value, [sys.exit]
    was called, or an exception is in flight. *)
Inductive result (A : Type) : Type :=
| Return (a : A)
| SysExit (status : option Z)
| Raise (e : exn).
Arguments Return {A} a.
Arguments SysExit {A} status.
Arguments Raise {A} e.

(** Exit status of the interpreter: 0 on fall-through, the argument of
    [sys.exit] (0 when there is none), 1 after an uncaught exception. *)
Definition exit_status {A : Type} (r : result A) : Z :=
  match r with
  | Return _ => 0
  | SysExit None => 0
  | SysExit (Some n) => n
  | Raise _ => 1
  end.

Definition M (A : Type) : Type := list event -> result A * list event.

Definition ret {A : Type} (a : A) : M A := fun h => (Return a, h).

Definition bind {A B : Type} (m : M A) (k : A -> M B) : M B :=
  fun h =>
    match m h with
    | (Return a, h') => k a h'
    | (SysExit s, h') => (SysExit s, h')
    | (Raise e, h') => (Raise e, h')
    end.

Notation "x <- m ;; k" := (bind m (fun x => k))
  (at level 61, m at next level, right associativity).
Notation "m ;; k" := (bind m (fun _ => k))
  (at level 61, right associativity).

Definition emit (e : event) : M unit := fun h => (Return tt, e :: h).

Definition raise {A : Type} (e : exn) : M A := fun h => (Raise e, h).

(** [sys.exit()] without an argument. *)
Definition sys_exit {A : Type} : M A := fun h => (SysExit None, h).

Definition lift {A : Type} (r : exn + A) : M A :=
  match r with
  | inl e => raise e
  | inr a => ret a
  end.

(** [try: body  except: handler]. *)
Definition try_except {A : Type} (body : M A) (handler : exn -> M A) : M A :=
  fun h =>
    match body h with
    | (Raise e, h') => handler e h'
    | r => r
    end.

Fixpoint for_each {A : Type} (l : list A) (body : A -> M unit) : M unit :=
  match l with
  | [] => ret tt
  | x :: l' => body x ;; for_each l' body
  end.

(** The chronological trace and outcome of a whole computation. *)
Definition run {A : Type} (m : M A) : result A * list event :=
  let (r, h) := m [] in (r, rev h).

(** Events that touch the file system, the network or other processes. *)
Definition is_effect (e : event) : bool :=
  match e with
  | Chdir _ | Makedirs _ | Subprocess _ => true
  | Print _ | Input _ => false
  end.

Definition effects (t : list event) : list event := filter is_effect t.

Definition commands (t : list event) : list (list string) :=
  flat_map (fun e => match e with Subprocess argv => [argv] | _ => [] end) t.

Definition prints (t : list event) : list string :=
  flat_map (fun e => match e with Print s => [s] | _ => [] end) t.

Definition prompts (t : list event) : list string :=
  flat_map (fun e => match e with Input s => [s] | _ => [] end) t.

(** The lines [call] printed: a line followed by the launch. *)
Fixpoint command_lines (t : list event) : list string :=
  match t with
  | [] => []
  | e :: t' =>
      match e, t' with
      | Print s, Subprocess _ :: _ => s :: command_lines t'
      | _, _ => command_lines t'
      end
  end.

(* ================================================================== *)
(** * The script *)
(* ================================================================== *)

(** The [argparse] namespace, attributes in the order [vars] lists them. *)
Record Namespace : Type := {
  tag : string;
  force : bool;
  build_dir : string;
  prereqs : bool;
  build_options_file : string
}.

(** The [dirs] dict of [install_opencv]. *)
Record Dirs : Type := {
  root : string;
  opencv : string;
  build_ : string
}.

Definition DEFAULT_BUILD_OPTIONS : list (string * string) :=
  [ ("CMAKE_BUILD_TYPE", "RELEASE");
    ("CMAKE_INSTALL_PREFIX", "/usr/local");
    ("INSTALL_C_EXAMPLES", "OFF");
    ("INSTALL_PYTHON_EXAMPLES", "OFF");
    ("BUILD_OPENCV_PYTHON2", "ON");
    ("PYTHON2_INCLUDE_DIR", "/usr/include/python2.7");
    ("BUILD_EXAMPLES", "OFF") ].

(** ["{}: {}".format(arg, val)] *)
Definition format_pair (kv : string * string) : string :=
  (fst kv ++ ": " ++ snd kv)%string.

(** ["-D {}={} ".format(arg, val)] *)
Definition format_flag (kv : string * string) : string :=
  ("-D " ++ fst kv ++ "=" ++ snd kv ++ " ")%string.

(** The loop [args_string += s] of [configure_build]. *)
Definition args_string (build_options : list (string * string)) : string :=
  fold_left (fun acc kv => (acc ++ format_flag kv)%string) build_options "".

(** ['cmake {} ..'.format(args_string)] *)
Definition cmake_call (build_options : list (string * string)) : string :=
  ("cmake " ++ args_string build_options ++ " ..")%string.

(** [vars(args).items()] with every value rendered by [format]. *)
Definition vars (a : Namespace) : list (string * string) :=
  [ ("tag", tag a);
    ("force", str_bool (force a));
    ("build_dir", build_dir a);
    ("prereqs", str_bool (prereqs a));
    ("build_options_file", build_options_file a) ].

(** [proceed[0]] *)
Definition getitem0 (s : string) : exn + ascii :=
  match s with
  | EmptyString => inl IndexError
  | String c _ => inr c
  end.

(** [len(build_options)] *)
Definition len (v : pyvalue) : exn + nat :=
  match v with
  | PyDict l => inr (List.length l)
  | PySized n => inr n
  | PyUnsized => inl TypeError
  end.

(** [build_options.items()] *)
Definition items (v : pyvalue) : exn + list (string * string) :=
  match v with
  | PyDict l => inr l
  | PySized _ | PyUnsized => inl AttributeError
  end.

Section Script.

Variable w : world.

Definition print (line : string) : M unit := emit (Print line).

(** [input(prompt)]: the line without its newline, or the exception. *)
Definition input (prompt : string) : M string :=
  fun h => (match read_line w h with
            | inl e => Raise e
            | inr line => Return line
            end, Input prompt :: h).

Definition os_chdir_ (dirpath : string) : M unit :=
  fun h => (match os_chdir w h dirpath with
            | Some e => Raise e
            | None => Return tt
            end, Chdir dirpath :: h).

Definition os_makedirs_ (dirpath : string) : M unit :=
  fun h => (match os_makedirs w h dirpath with
            | Some e => Raise e
            | None => Return tt
            end, Makedirs dirpath :: h).

(** [os.path.exists(path)]: the empty path names no file. *)
Definition os_path_exists (path : string) : M bool :=
  fun h => (Return (match path with
                    | EmptyString => false
                    | _ => stat_ok w h path
                    end), h).

(** [with open(path, 'r') as fp: json.load(fp)] *)
Definition open_json_load (path : string) : M pyvalue :=
  fun h => (match json_load w h path with
            | inl e => Raise e
            | inr v => Return v
            end, h).

(** [subprocess.call(argv)]: an empty argument vector raises
    [IndexError]; otherwise the launch raises what the world says (the
    program is missing, or may not be run) or the child runs and its
    exit status comes back. *)
Definition subprocess_call_ (argv : list string) : M unit :=
  fun h => (match argv with
            | [] => Raise IndexError
            | _ :: _ =>
                match subprocess_call w h argv with
                | Some e => Raise e
                | None => Return tt
                end
            end, Subprocess argv :: h).

(** [call]: print the command, launch it, drop its exit status. *)
Definition call (command : string) : M unit :=
  print command ;;
  subprocess_call_ (split command).

Definition chdir (dirpath : string) : M unit :=
  try_except (os_chdir_ dirpath)
    (fun e =>
       print ("ERROR: Couldn't chdir into " ++ dirpath ++ ". Exiting.")%string ;;
       print (format_exc w e) ;;
       sys_exit).

Definition download_source (a : Namespace) (d : Dirs) : M unit :=
  print "Downloading source..." ;;
  chdir (root d) ;;
  call "git clone https://github.com/Itseez/opencv.git" ;;
  chdir (opencv d) ;;
  call ("git checkout tags/" ++ tag a)%string ;;
  chdir (root d).

(** Lines 129-138: the option set the build is configured with. *)
Definition load_build_options (a : Namespace) : M pyvalue :=
  build_options <-
    (there <- os_path_exists (build_options_file a) ;;
     if there then open_json_load (build_options_file a)
     else ret (PyDict [])) ;;
  n <- lift (len build_options) ;;
  if (n =? 0)%nat then ret (PyDict DEFAULT_BUILD_OPTIONS) else ret build_options.

Definition configure_build (a : Namespace) (d : Dirs) : M unit :=
  try_except (os_makedirs_ (build_ d))
    (fun e =>
       match e with
       | FileExistsError => ret tt
       | _ =>
           print "ERROR: Couldn't create the build directory. Exiting." ;;
           print (format_exc w e) ;;
           sys_exit
       end) ;;
  chdir (build_ d) ;;
  build_options <- load_build_options a ;;
  print "Building OpenCV with the following options:" ;;
  shown <- lift (items build_options) ;;
  for_each shown (fun kv => print (format_pair kv)) ;;
  print nl ;;
  flags <- lift (items build_options) ;;
  call (cmake_call flags).

Definition build (a : Namespace) (d : Dirs) : M unit :=
  chdir (build_ d) ;;
  call "make -j 3".

Definition install (a : Namespace) (d : Dirs) : M unit :=
  chdir (build_ d) ;;
  call "sudo make install" ;;
  call "sudo ldconfig".

(** Lines 71-74. *)
Definition make_dirs (a : Namespace) : Dirs :=
  let r := realpath w (build_dir a) in
  let o := path_join r "opencv" in
  {| root := r; opencv := o; build_ := path_join o "build" |}.

(** Lines 58-67; [false] is the early [return]. *)
Definition confirm (a : Namespace) : M bool :=
  if negb (force a) then
    proceed <- input "Proceed with the installation? " ;;
    try_except
      (c <- lift (getitem0 proceed) ;;
       if negb (Ascii.eqb (lower c) "y")
       then print "Exiting." ;; ret false
       else ret true)
      (fun e =>
         print "Exiting (exception)" ;;
         print (format_exc w e) ;;
         ret false)
  else ret true.

(** Lines 77-84. *)
Definition pipeline (a : Namespace) (d : Dirs) : M unit :=
  download_source a d ;;
  configure_build a d ;;
  build a d ;;
  install a d.

Definition install_opencv (a : Namespace) : M unit :=
  print (nl ++ "Selected installation options: ")%string ;;
  for_each (vars a) (fun kv => print (format_pair kv)) ;;
  print nl ;;
  go <- confirm a ;;
  if go then pipeline a (make_dirs a) else ret tt.

Definition install_prereqs : M unit :=
  print "Installing prerequisites..." ;;
  call "sudo apt-get update" ;;
  call "sudo apt-get upgrade" ;;
  call "sudo apt-get install build-essential cmake git pkg-config libjpeg8-dev libjasper-dev libpng12-dev libgtk2.0-dev libavcodec-dev libavformat-dev libswscale-dev libv4l-dev libatlas-base-dev gfortran python-dev python-numpy python3-dev python3-numpy".

(** The [__main__] block after argument parsing. *)
Definition main (a : Namespace) : M unit :=
  (if prereqs a then install_prereqs else ret tt) ;;
  install_opencv a.

End Script.

(* ================================================================== *)
(** * The command line *)
(* ================================================================== *)

(** [parse_command_line_args] declares five options (and argparse adds
    [-h]).  The model covers command lines in which every option is
    spelled out in full and every value is a token of its own; a token
    that starts with a dash and is neither a declared option string nor
    a lone dash (an abbreviation, [--tag=4.0.0], [-fp], [--], [-1]) puts
    the command line outside the model: [Unmodelled]. *)

Inductive option_name : Type :=
| OptHelp | OptTag | OptForce | OptBuildDir | OptPrereqs | OptBuildOptionsFile.

Definition option_of (tok : string) : option option_name :=
  if ((tok =? "-h") || (tok =? "--help"))%string then Some OptHelp
  else if ((tok =? "-t") || (tok =? "--tag"))%string then Some OptTag
  else if ((tok =? "-f") || (tok =? "--force"))%string then Some OptForce
  else if ((tok =? "-d") || (tok =? "--build-dir"))%string then Some OptBuildDir
  else if ((tok =? "-p") || (tok =? "--prereqs"))%string then Some OptPrereqs
  else if ((tok =? "-b") || (tok =? "--build-options-file"))%string
       then Some OptBuildOptionsFile
  else None.

Inductive token_class : Type :=
| IsOption (o : option_name)
| IsArgument
| IsOther.

Definition classify (tok : string) : token_class :=
  match option_of tok with
  | Some o => IsOption o
  | None =>
      match tok with
      | String "-" EmptyString => IsArgument
      | String "-" _ => IsOther
      | _ => IsArgument
      end
  end.

Definition is_other (tok : string) : bool :=
  match classify tok with
  | IsOther => true
  | _ => false
  end.

Definition names (o : option_name) (tok : string) : bool :=
  match option_of tok, o with
  | Some OptHelp, OptHelp
  | Some OptTag, OptTag
  | Some OptForce, OptForce
  | Some OptBuildDir, OptBuildDir
  | Some OptPrereqs, OptPrereqs
  | Some OptBuildOptionsFile, OptBuildOptionsFile => true
  | _, _ => false
  end.

Inductive parse_result : Type :=
| Parsed (a : Namespace)
| HelpExit       (* usage printed, status 0 *)
| UsageError     (* parser.error, status 2 *)
| Unmodelled.

(** The defaults of the five [add_argument] calls. *)
Definition defaults (cwd : string) : Namespace :=
  {| tag := "3.3.1";
     force := false;               (* store_true *)
     build_dir := cwd;             (* os.getcwd() *)
     prereqs := true;              (* store_false *)
     build_options_file := "" |}.

(** The action of an option on the namespace. *)
Definition store (o : option_name) (v : string) (ns : Namespace) : Namespace :=
  match o with
  | OptTag =>
      {| tag := v; force := force ns; build_dir := build_dir ns;
         prereqs := prereqs ns; build_options_file := build_options_file ns |}
  | OptForce =>
      {| tag := tag ns; force := true; build_dir := build_dir ns;
         prereqs := prereqs ns; build_options_file := build_options_file ns |}
  | OptBuildDir =>
      {| tag := tag ns; force := force ns; build_dir := v;
         prereqs := prereqs ns; build_options_file := build_options_file ns |}
  | OptPrereqs =>
      {| tag := tag ns; force := force ns; build_dir := build_dir ns;
         prereqs := false; build_options_file := build_options_file ns |}
  | OptBuildOptionsFile =>
      {| tag := tag ns; force := force ns; build_dir := build_dir ns;
         prereqs := prereqs ns; build_options_file := v |}
  | OptHelp => ns
  end.

(** Left to right; [extras] records that an unrecognised positional
    argument was seen, which argparse reports once all options are done. *)
Fixpoint parse_loop (ns : Namespace) (extras : bool) (argv : list string)
  : parse_result :=
  match argv with
  | [] => if extras then UsageError else Parsed ns
  | tok :: rest =>
      match classify tok with
      | IsOther => Unmodelled
      | IsArgument => parse_loop ns true rest
      | IsOption OptHelp => HelpExit
      | IsOption OptForce => parse_loop (store OptForce "" ns) extras rest
      | IsOption OptPrereqs => parse_loop (store OptPrereqs "" ns) extras rest
      | IsOption o =>
          match rest with
          | [] => UsageError
          | v :: rest' =>
              match classify v with
              | IsArgument => parse_loop (store o v ns) extras rest'
              | IsOption _ => UsageError
              | IsOther => Unmodelled
              end
          end
      end
  end.

Definition parse_command_line_args (w : world) (argv : list string)
  : parse_result :=
  if existsb is_other argv then Unmodelled
  else parse_loop (defaults (getcwd w)) false argv.

(* ================================================================== *)
(** * Concrete worlds and inputs *)
(* ================================================================== *)

Module Sample.

Definition traceback (e : exn) : string :=
  match e with
  | EOFError => "EOFError: EOF when reading a line"
  | IndexError => "IndexError: string index out of range"
  | TypeError => "TypeError: object has no len()"
  | AttributeError => "AttributeError: object has no attribute 'items'"
  | FileExistsError => "FileExistsError: [Errno 17] File exists"
  | OSError d => ("OSError: " ++ d)%string
  | JSONDecodeError d => ("json.decoder.JSONDecodeError: " ++ d)%string
  end.

(** Every directory operation succeeds, no options file exists, and the
    console answers [answer]. *)
Definition calm (answer : exn + string) : world :=
  {| getcwd := "/home/user";
     realpath := fun p => p;
     format_exc := traceback;
     read_line := fun _ => answer;
     os_chdir := fun _ _ => None;
     os_makedirs := fun _ _ => None;
     stat_ok := fun _ _ => false;
     json_load := fun _ _ => inl (OSError "[Errno 2] No such file or directory");
     subprocess_call := fun _ _ => None |}.

(** No directory can be entered. *)
Definition no_root : world :=
  {| getcwd := "/home/user";
     realpath := fun p => p;
     format_exc := traceback;
     read_line := fun _ => inr "yes";
     os_chdir := fun _ _ => Some (OSError "[Errno 2] No such file or directory");
     os_makedirs := fun _ _ => None;
     stat_ok := fun _ _ => false;
     json_load := fun _ _ => inl (OSError "[Errno 2] No such file or directory");
     subprocess_call := fun _ _ => None |}.


(** Every path exists and [json.load] answers [loaded]. *)
Definition with_file (loaded : exn + pyvalue) : world :=
  {| getcwd := "/home/user";
     realpath := fun p => p;
     format_exc := traceback;
     read_line := fun _ => inr "yes";
     os_chdir := fun _ _ => None;
     os_makedirs := fun _ _ => Some FileExistsError;
     stat_ok := fun _ _ => true;
     json_load := fun _ _ => loaded;
     subprocess_call := fun _ _ => None |}.


(** The configuration of the end-to-end scenario. *)
Definition scenario : Namespace :=
  {| tag := "4.0.0"; force := true; build_dir := "/tmp/x";
     prereqs := false; build_options_file := "" |}.

(** The configuration of a bare command line. *)
Definition bare : Namespace := defaults "/home/user".

Definition quiet : Namespace :=
  {| tag := "3.3.1"; force := false; build_dir := "/home/user";
     prereqs := false; build_options_file := "" |}.

Definition forced (file : string) : Namespace :=
  {| tag := "3.3.1"; force := true; build_dir := "/home/user";
     prereqs := false; build_options_file := file |}.

Definition forced_in (dir : string) : Namespace :=
  {| tag := "3.3.1"; force := true; build_dir := dir;
     prereqs := false; build_options_file := "" |}.

End Sample.

(* ================================================================== *)
(** * Vocabulary of the properties *)
(* ================================================================== *)

(** What the gate tests: [proceed[0].lower() == 'y'] on a non-empty
    line. *)
Definition says_yes (line : string) : bool :=
  match line with
  | EmptyString => false
  | String c _ => Ascii.eqb (lower c) "y"
  end.

(** The test in the specification's words: the first character of the
    trimmed input, lower-cased, equals [y]. *)
Definition trimmed_says_yes (line : string) : bool :=
  says_yes (lstrip line).

Definition prompt : string := "Proceed with the installation? ".

(** What [install_opencv] prints before the gate. *)
Definition shown_options (a : Namespace) : list event :=
  Print (nl ++ "Selected installation options: ")%string
    :: map (fun kv => Print (format_pair kv)) (vars a) ++ [Print nl].

Definition apt_install : string :=
  "sudo apt-get install build-essential cmake git pkg-config libjpeg8-dev libjasper-dev libpng12-dev libgtk2.0-dev libavcodec-dev libavformat-dev libswscale-dev libv4l-dev libatlas-base-dev gfortran python-dev python-numpy python3-dev python3-numpy".

(** The trace of [install_prereqs]. *)
Definition prereqs_trace : list event :=
  [ Print "Installing prerequisites...";
    Print "sudo apt-get update";
    Subprocess ["sudo"; "apt-get"; "update"];
    Print "sudo apt-get upgrade";
    Subprocess ["sudo"; "apt-get"; "upgrade"];
    Print apt_install;
    Subprocess (split apt_install) ].

(** Every launch of the trace [t], replayed on top of the log [h],
    returns. *)
Fixpoint launched (w : world) (h : list event) (t : list event) : Prop :=
  match t with
  | [] => True
  | e :: t' =>
      match e with
      | Subprocess argv => fst (subprocess_call_ w argv h) = Return tt
      | _ => True
      end /\ launched w (e :: h) t'
  end.

(** Everything [main] does before the gate. *)
Definition before_gate (a : Namespace) : list event :=
  (if prereqs a then prereqs_trace else []) ++ shown_options a.

(** What the gate prints when it turns the user away: an empty line
    makes [proceed[0]] raise, any other refusal is answered plainly. *)
Definition farewell (w : world) (line : string) : list event :=
  match line with
  | EmptyString => [Print "Exiting (exception)"; Print (format_exc w IndexError)]
  | _ => [Print "Exiting."]
  end.

(** The trace of [configure_build] when it gets to configure with the
    option set [build_options]. *)
Definition configured (d : Dirs) (build_options : list (string * string))
  : list event :=
  [ Makedirs (build_ d);
    Chdir (build_ d);
    Print "Building OpenCV with the following options:" ]
  ++ map (fun kv => Print (format_pair kv)) build_options
  ++ [ Print nl;
       Print (cmake_call build_options);
       Subprocess (split (cmake_call build_options)) ].

(** The same trace up to the launch of cmake: the log the launch is
    attempted on. *)
Definition configuring (d : Dirs) (build_options : list (string * string))
  : list event :=
  [ Makedirs (build_ d);
    Chdir (build_ d);
    Print "Building OpenCV with the following options:" ]
  ++ map (fun kv => Print (format_pair kv)) build_options
  ++ [ Print nl; Print (cmake_call build_options) ].

(** The trace of [download_source] when both directories can be
    entered and both launches return. *)
Definition fetched (a : Namespace) (d : Dirs) : list event :=
  [ Print "Downloading source...";
    Chdir (root d);
    Print "git clone https://github.com/Itseez/opencv.git";
    Subprocess ["git"; "clone"; "https://github.com/Itseez/opencv.git"];
    Chdir (opencv d);
    Print ("git checkout tags/" ++ tag a)%string;
    Subprocess (split ("git checkout tags/" ++ tag a)%string);
    Chdir (root d) ].

(** The argument vector the specification expects for an option set. *)
Definition flag_tokens (build_options : list (string * string)) : list string :=
  "cmake"
    :: flat_map (fun kv => ["-D"; (fst kv ++ "=" ++ snd kv)%string]) build_options
    ++ [".."].

(** The flags of an option set, concatenated in order. *)
Definition joined_flags (build_options : list (string * string)) : string :=
  fold_right (fun kv acc => (format_flag kv ++ acc)%string) "" build_options.

(** An entry whose key and value hold no whitespace. *)
Definition plain (kv : string * string) : Prop :=
  has_space (fst kv) = false /\ has_space (snd kv) = false.

(** The directory an event operates on. *)
Definition dir_of (e : event) : option string :=
  match e with
  | Chdir p | Makedirs p => Some p
  | _ => None
  end.

(** * Properties of computations *)

(** Whatever [m] appends to the log satisfies [P]. *)
Definition emits {A : Type} (P : event -> Prop) (m : M A) : Prop :=
  forall h, exists t, snd (m h) = t ++ h /\ Forall P t.




(** Directory operations stay on the three derived paths. *)
Definition within (d : Dirs) (e : event) : Prop :=
  match dir_of e with
  | Some p => p = root d \/ p = opencv d \/ p = build_ d
  | None => True
  end.

(* ================================================================== *)
(** * Vocabulary of the further properties *)
(* ================================================================== *)

(** The trace of [build] when the build directory can be entered. *)
Definition built (d : Dirs) : list event :=
  [ Chdir (build_ d); Print "make -j 3"; Subprocess ["make"; "-j"; "3"] ].

(** The trace of [install] when the build directory can be entered. *)
Definition installed (d : Dirs) : list event :=
  [ Chdir (build_ d);
    Print "sudo make install"; Subprocess ["sudo"; "make"; "install"];
    Print "sudo ldconfig"; Subprocess ["sudo"; "ldconfig"] ].

(** The commands of the four stages, in the order of lines 77-84, for
    the option set the build is configured with. *)
Definition stage_commands (a : Namespace)
  (build_options : list (string * string)) : list (list string) :=
  [ split "git clone https://github.com/Itseez/opencv.git";
    split ("git checkout tags/" ++ tag a)%string;
    split (cmake_call build_options);
    split "make -j 3";
    split "sudo make install";
    split "sudo ldconfig" ].

(** Every launch together with the directory of the last [os.chdir]
    before it. *)
Fixpoint launches (cwd : option string) (t : list event)
  : list (option string * list string) :=
  match t with
  | [] => []
  | Chdir p :: t' => launches (Some p) t'
  | Subprocess argv :: t' => (cwd, argv) :: launches cwd t'
  | _ :: t' => launches cwd t'
  end.

(** On a log (most recent event first): every launch stands right
    after the print of a line that splits into its argument vector. *)
Fixpoint announced (h : list event) : Prop :=
  match h with
  | [] => True
  | e :: h' =>
      match e with
      | Subprocess argv =>
          match h' with
          | Print c :: _ => split c = argv
          | _ => False
          end
      | _ => True
      end /\ announced h'
  end.

(** [m] keeps an invariant of the log. *)
Definition keeps {A : Type} (R : list event -> Prop) (m : M A) : Prop :=
  forall h, R h -> R (snd (m h)).

(** Where an exception that escapes the script can come from: the
    console read, the launch of a program, the loading of the options
    file, or the inspection of what was loaded ([len], [items]). *)
Definition escapes (w : world) (a : Namespace) (e : exn) : Prop :=
  (exists h, read_line w h = inl e)
  \/ (exists h argv, subprocess_call w h argv = Some e)
  \/ (exists h, json_load w h (build_options_file a) = inl e)
  \/ e = TypeError
  \/ e = AttributeError.

(** Every exception [m] leaves in flight satisfies [S]. *)
Definition raises_only {A : Type} (S : exn -> Prop) (m : M A) : Prop :=
  forall h e, fst (m h) = Raise e -> S e.

(** Options that take a value. *)
Definition takes_value (o : option_name) : bool :=
  match o with
  | OptTag | OptBuildDir | OptBuildOptionsFile => true
  | OptHelp | OptForce | OptPrereqs => false
  end.

(** An event that is not a launch. *)
Definition no_launch (e : event) : Prop :=
  match e with
  | Subprocess _ => False
  | _ => True
  end.

(** [m] attempts, in order, an initial part of the launches [F entries],
    for some option set [entries], and all of them when it returns. *)
Definition issues {A : Type} (m : M A)
  (F : list (string * string) -> list (list string)) : Prop :=
  forall h,
  exists entries k,
    k <= length (F entries)
    /\ commands (rev (snd (m h))) = commands (rev h) ++ firstn k (F entries)
    /\ (forall a, fst (m h) = Return a -> k = length (F entries)).

(** A token a launch can carry: not empty, no whitespace. *)
Definition word (tok : string) : Prop :=
  tok <> EmptyString /\ has_space tok = false.

(** An event that is not a console read. *)
Definition no_input (e : event) : Prop :=
  match e with
  | Input _ => False
  | _ => True
  end.

(** Settle a conjunction of closed facts by evaluation. *)
Ltac evaluated :=
  repeat match goal with |- _ /\ _ => split end;
  first [ vm_compute; reflexivity
        | vm_compute; discriminate
        | intros; reflexivity ].

(* ================================================================== *)
(** * Lemmas on strings *)
(* ================================================================== *)

Lemma lower_y (c : ascii) :
  Ascii.eqb (lower c) "y" = true <-> c = "y"%char \/ c = "Y"%char.
Proof.
  destruct c as [[] [] [] [] [] [] [] []]; vm_compute;
    split; intros H; try discriminate; auto;
    destruct H as [H | H]; discriminate.
Qed.

Lemma space_is_not_y (c : ascii) :
  is_space c = true -> Ascii.eqb (lower c) "y" = false.
Proof.
  destruct c as [[] [] [] [] [] [] [] []]; vm_compute;
    intros H; try reflexivity; discriminate.
Qed.

(** Trimming can only turn a refusal into a consent. *)
Lemma says_yes_trimmed (line : string) :
  says_yes line = true -> trimmed_says_yes line = true.
Proof.
  unfold trimmed_says_yes.
  destruct line as [| c rest]; simpl; [discriminate |].
  intros H. destruct (is_space c) eqn:Hc.
  - rewrite (space_is_not_y c Hc) in H. discriminate.
  - exact H.
Qed.

Lemma trimmed_refusal (line : string) :
  trimmed_says_yes line = false -> says_yes line = false.
Proof.
  intros H. destruct (says_yes line) eqn:E; [| reflexivity].
  apply says_yes_trimmed in E. congruence.
Qed.

Lemma says_yes_spec (line : string) :
  says_yes line = true <->
  exists c rest, line = String c rest /\ (c = "y"%char \/ c = "Y"%char).
Proof.
  destruct line as [| c rest]; simpl.
  - split; [discriminate | intros (c & rest & H & _); discriminate].
  - rewrite lower_y. split.
    + intros H. exists c, rest. auto.
    + intros (c' & rest' & H & Hc). injection H as -> _. exact Hc.
Qed.

Lemma append_assoc (a b c : string) :
  ((a ++ b) ++ c = a ++ (b ++ c))%string.
Proof. induction a as [| x a IH]; simpl; [reflexivity | now rewrite IH]. Qed.

Lemma append_empty_r (a : string) : (a ++ "" = a)%string.
Proof. induction a as [| x a IH]; simpl; [reflexivity | now rewrite IH]. Qed.

Lemma has_space_append (a b : string) :
  has_space (a ++ b) = has_space a || has_space b.
Proof.
  induction a as [| x a IH]; simpl; [reflexivity |].
  now rewrite IH, orb_assoc.
Qed.

(** A word without whitespace is read into the current word whole. *)
Lemma split_from_word (word cur rest : string) :
  has_space word = false ->
  split_from cur (word ++ rest) = split_from (cur ++ word) rest.
Proof.
  revert cur. induction word as [| c word IH]; intros cur H; simpl.
  - now rewrite append_empty_r.
  - simpl in H. apply orb_false_elim in H as [Hc Hw].
    rewrite Hc, IH by exact Hw.
    now rewrite append_assoc.
Qed.

Lemma split_from_blank (cur rest : string) :
  cur <> EmptyString ->
  split_from cur (String " " rest) = cur :: split_from "" rest.
Proof. intros H. destruct cur; [contradiction | reflexivity]. Qed.

Lemma fold_flags (build_options : list (string * string)) (acc : string) :
  fold_left (fun acc kv => (acc ++ format_flag kv)%string) build_options acc
  = (acc ++ joined_flags build_options)%string.
Proof.
  revert acc. induction build_options as [| kv l IH]; intros acc; simpl.
  - now rewrite append_empty_r.
  - now rewrite IH, append_assoc.
Qed.

Lemma args_string_joined (build_options : list (string * string)) :
  args_string build_options = joined_flags build_options.
Proof. unfold args_string. now rewrite fold_flags. Qed.

Lemma split_dash_D (x : string) :
  split_from "" ("-D " ++ x) = "-D" :: split_from "" x.
Proof. reflexivity. Qed.

Lemma split_flag (k v rest : string) :
  has_space k = false -> has_space v = false ->
  split_from "" (format_flag (k, v) ++ rest)
  = "-D" :: (k ++ "=" ++ v)%string :: split_from "" rest.
Proof.
  intros Hk Hv. unfold format_flag. cbn [fst snd].
  replace (("-D " ++ k ++ "=" ++ v ++ " ") ++ rest)%string
    with ("-D " ++ (k ++ "=" ++ v) ++ String " " rest)%string
    by (now rewrite !append_assoc).
  rewrite split_dash_D, split_from_word.
  - cbn [append]. rewrite split_from_blank; [reflexivity |].
    destruct k; discriminate.
  - rewrite !has_space_append, Hk, Hv. reflexivity.
Qed.

Lemma split_flags (build_options : list (string * string)) (rest : string) :
  Forall plain build_options ->
  split_from "" (joined_flags build_options ++ rest)
  = flat_map (fun kv => ["-D"; (fst kv ++ "=" ++ snd kv)%string]) build_options
      ++ split_from "" rest.
Proof.
  induction 1 as [| [k v] l [Hk Hv] _ IH]; [reflexivity |].
  simpl in Hk, Hv.
  cbn [joined_flags fold_right flat_map app fst snd].
  fold (joined_flags l).
  now rewrite append_assoc, split_flag, IH.
Qed.

(** With plain keys and values the launch gets one flag pair per
    entry. *)
Lemma split_cmake_call (build_options : list (string * string)) :
  Forall plain build_options ->
  split (cmake_call build_options) = flag_tokens build_options.
Proof.
  intros H. unfold split, cmake_call, flag_tokens.
  rewrite args_string_joined.
  change (split_from "" ("cmake " ++ ?x)) with ("cmake" :: split_from "" x).
  now rewrite split_flags.
Qed.

Lemma endswith_sep_append (a : string) (c : ascii) (b : string) :
  endswith_sep (a ++ String c b) = endswith_sep (String c b).
Proof.
  induction a as [| x a IH]; [reflexivity |].
  change (String x a ++ String c b)%string with (String x (a ++ String c b)).
  cbn [endswith_sep]. rewrite IH.
  destruct a; reflexivity.
Qed.

Lemma path_join_plain (a b : string) (c : ascii) :
  c <> "/"%char -> a <> EmptyString -> endswith_sep a = false ->
  path_join a (String c b) = (a ++ "/" ++ String c b)%string.
Proof.
  intros Hc Ha He. unfold path_join.
  destruct a as [| x a]; [contradiction |].
  rewrite He.
  destruct c as [[] [] [] [] [] [] [] []]; try reflexivity.
  contradiction Hc. reflexivity.
Qed.

(* ================================================================== *)
(** * Reasoning about computations *)
(* ================================================================== *)

Section Logic.

Context {A B : Type}.
Variable P : event -> Prop.

Lemma emits_ret (a : A) : emits P (ret a).
Proof. intros h. exists []. split; [reflexivity | constructor]. Qed.

Lemma emits_raise (e : exn) : emits P (@raise A e).
Proof. intros h. exists []. split; [reflexivity | constructor]. Qed.

Lemma emits_sys_exit : emits P (@sys_exit A).
Proof. intros h. exists []. split; [reflexivity | constructor]. Qed.

Lemma emits_lift (r : exn + A) : emits P (lift r).
Proof. destruct r; [apply emits_raise | apply emits_ret]. Qed.

Lemma emits_emit (e : event) : P e -> emits P (emit e).
Proof. intros H h. exists [e]. split; [reflexivity | now constructor]. Qed.

Lemma emits_bind (m : M A) (k : A -> M B) :
  emits P m -> (forall a, emits P (k a)) -> emits P (bind m k).
Proof.
  intros Hm Hk h. unfold bind.
  destruct (Hm h) as (t & E & F).
  destruct (m h) as [[a | s | e] h']; simpl in E; subst h'.
  - destruct (Hk a (t ++ h)) as (t' & E' & F').
    exists (t' ++ t). rewrite E', app_assoc.
    split; [reflexivity | now apply Forall_app].
  - now exists t.
  - now exists t.
Qed.

Lemma emits_try_except (body : M A) (handler : exn -> M A) :
  emits P body -> (forall e, emits P (handler e)) ->
  emits P (try_except body handler).
Proof.
  intros Hm Hk h. unfold try_except.
  destruct (Hm h) as (t & E & F).
  destruct (body h) as [[a | s | e] h']; simpl in E; subst h'.
  - now exists t.
  - now exists t.
  - destruct (Hk e (t ++ h)) as (t' & E' & F').
    exists (t' ++ t). rewrite E', app_assoc.
    split; [reflexivity | now apply Forall_app].
Qed.

End Logic.

Lemma emits_for_each {A : Type} (P : event -> Prop) (l : list A)
  (body : A -> M unit) :
  (forall x, emits P (body x)) -> emits P (for_each l body).
Proof.
  intros H. induction l as [| x l IH]; simpl.
  - apply emits_ret.
  - apply emits_bind; auto.
Qed.

Lemma emits_if {A : Type} (P : event -> Prop) (b : bool) (m1 m2 : M A) :
  emits P m1 -> emits P m2 -> emits P (if b then m1 else m2).
Proof. now destruct b. Qed.

Section LogicOfScript.

Variable w : world.
Variable P : event -> Prop.

Lemma emits_input (s : string) : P (Input s) -> emits P (input w s).
Proof. intros H h. exists [Input s]. split; [reflexivity | now constructor]. Qed.

Lemma emits_os_chdir (p : string) : P (Chdir p) -> emits P (os_chdir_ w p).
Proof. intros H h. exists [Chdir p]. split; [reflexivity | now constructor]. Qed.

Lemma emits_os_makedirs (p : string) :
  P (Makedirs p) -> emits P (os_makedirs_ w p).
Proof.
  intros H h. exists [Makedirs p]. split; [reflexivity | now constructor].
Qed.

Lemma emits_subprocess_call (argv : list string) :
  P (Subprocess argv) -> emits P (subprocess_call_ w argv).
Proof.
  intros H h. exists [Subprocess argv]. split; [reflexivity | now constructor].
Qed.

Lemma emits_os_path_exists (p : string) : emits P (os_path_exists w p).
Proof. intros h. exists []. split; [reflexivity | constructor]. Qed.

Lemma emits_open_json_load (p : string) : emits P (open_json_load w p).
Proof. intros h. exists []. split; [reflexivity | constructor]. Qed.

Lemma emits_match_exn {A : Type} (e : exn) (m1 m2 : M A) :
  emits P m1 -> emits P m2 ->
  emits P (match e with FileExistsError => m1 | _ => m2 end).
Proof. now destruct e. Qed.

End LogicOfScript.

(** Decompose a goal [emits P m] along the structure of [m], down to
    conditions on single events. *)
Ltac emitting :=
  repeat
    match goal with
    | |- emits _ (ret _) => apply emits_ret
    | |- emits _ (raise _) => apply emits_raise
    | |- emits _ sys_exit => apply emits_sys_exit
    | |- emits _ (lift _) => apply emits_lift
    | |- emits _ (emit _) => apply emits_emit
    | |- emits _ (print _) => apply emits_emit
    | |- emits _ (input _ _) => apply emits_input
    | |- emits _ (os_chdir_ _ _) => apply emits_os_chdir
    | |- emits _ (os_makedirs_ _ _) => apply emits_os_makedirs
    | |- emits _ (subprocess_call_ _ _) => apply emits_subprocess_call
    | |- emits _ (os_path_exists _ _) => apply emits_os_path_exists
    | |- emits _ (open_json_load _ _) => apply emits_open_json_load
    | |- emits _ (for_each _ _) => apply emits_for_each; intros
    | |- emits _ (if _ then _ else _) => apply emits_if
    | |- emits _ (match _ with FileExistsError => _ | _ => _ end) =>
        apply emits_match_exn
    | |- emits _ (try_except _ _) => apply emits_try_except; intros
    | |- emits _ (bind _ _) => apply emits_bind; intros
    end.

Section Emissions.

Variable w : world.

Lemma pipeline_within (a : Namespace) (d : Dirs) :
  emits (within d) (pipeline w a d).
Proof.
  unfold pipeline, download_source, configure_build, build, install,
    load_build_options, chdir, call.
  emitting; unfold within; simpl; auto.
Qed.

Lemma main_within (a : Namespace) :
  emits (within (make_dirs w a)) (main w a).
Proof.
  unfold main, install_prereqs, install_opencv, confirm, call.
  emitting; try apply pipeline_within; unfold within; simpl; auto.
Qed.

(** What is in the log stays in the log. *)
Lemma emits_keeps {A : Type} (m : M A) (Q : event -> Prop) (h : list event)
  (e : event) :
  emits Q m -> In e h -> In e (snd (m h)).
Proof.
  intros H Hin. destruct (H h) as (t & E & _). rewrite E.
  apply in_or_app. now right.
Qed.

Lemma bind_keeps {A B : Type} (m : M A) (k : A -> M B) (Q : event -> Prop)
  (h : list event) (e : event) :
  (forall a, emits Q (k a)) -> In e (snd (m h)) -> In e (snd (bind m k h)).
Proof.
  intros Hk Hin. unfold bind.
  destruct (m h) as [[a | s | x] h']; simpl in *; auto.
  eapply emits_keeps; [apply Hk | exact Hin].
Qed.

Lemma bind_extends {A B : Type} (m : M A) (k : A -> M B) (Q : event -> Prop)
  (h : list event) :
  (forall a, emits Q (k a)) -> exists t, snd (bind m k h) = t ++ snd (m h).
Proof.
  intros Hk. unfold bind.
  destruct (m h) as [[a | s | x] h']; cbn [snd]; try now exists [].
  destruct (Hk a h') as (t & E & _). now exists t.
Qed.

Lemma install_opencv_extends (a : Namespace) :
  emits (fun _ => True) (install_opencv w a).
Proof.
  unfold install_opencv, confirm, pipeline, download_source,
    configure_build, build, install, load_build_options, chdir, call.
  emitting; exact I.
Qed.

End Emissions.

Section Exits.

Variable w : world.



















End Exits.

(* ================================================================== *)
(** * Stepping through the script *)
(* ================================================================== *)

Section Steps.

Variable w : world.

Lemma bind_return {A B : Type} (m : M A) (k : A -> M B) (h h' : list event)
  (a : A) :
  m h = (Return a, h') -> bind m k h = k a h'.
Proof. intros E. unfold bind. now rewrite E. Qed.

Lemma bind_exit {A B : Type} (m : M A) (k : A -> M B) (h h' : list event)
  (s : option Z) :
  m h = (SysExit s, h') -> bind m k h = (SysExit s, h').
Proof. intros E. unfold bind. now rewrite E. Qed.


Lemma subprocess_call_returns (argv : list string) (h : list event) :
  fst (subprocess_call_ w argv h) = Return tt ->
  subprocess_call_ w argv h = (Return tt, Subprocess argv :: h).
Proof. unfold subprocess_call_. simpl. now intros ->. Qed.

(** What [call] logs does not depend on how the launch ends. *)
Lemma call_log (command : string) (h : list event) :
  snd (call w command h) = Subprocess (split command) :: Print command :: h.
Proof. reflexivity. Qed.

Lemma call_eq (command : string) (h : list event) :
  call w command h
  = (fst (subprocess_call_ w (split command) (Print command :: h)),
     Subprocess (split command) :: Print command :: h).
Proof. reflexivity. Qed.

Lemma call_returns (command : string) (h : list event) :
  fst (subprocess_call_ w (split command) (Print command :: h)) = Return tt ->
  call w command h
  = (Return tt, Subprocess (split command) :: Print command :: h).
Proof.
  intros H. unfold call. erewrite bind_return; [| reflexivity].
  now apply subprocess_call_returns.
Qed.

(** The cmake command line is never empty. *)
Lemma split_cmake (build_options : list (string * string)) :
  split (cmake_call build_options)
  = "cmake" :: split_from "" (args_string build_options ++ " ..").
Proof. reflexivity. Qed.

Lemma launch_cmake (build_options : list (string * string))
  (h : list event) :
  subprocess_call w h (split (cmake_call build_options)) = None ->
  fst (subprocess_call_ w (split (cmake_call build_options)) h) = Return tt.
Proof.
  unfold subprocess_call_. cbn [fst]. rewrite split_cmake. now intros ->.
Qed.

(** When the world lets every program run, a launch returns unless
    its argument vector is empty. *)
Lemma launch_returns (argv : list string) (h : list event) :
  (forall h' argv', subprocess_call w h' argv' = None) ->
  argv <> [] ->
  fst (subprocess_call_ w argv h) = Return tt.
Proof.
  intros H Hne. unfold subprocess_call_. simpl.
  destruct argv; [contradiction | now rewrite H].
Qed.

Lemma chdir_ok (dirpath : string) (h : list event) :
  os_chdir w h dirpath = None ->
  chdir w dirpath h = (Return tt, Chdir dirpath :: h).
Proof.
  intros H. unfold chdir, try_except, os_chdir_. rewrite H. reflexivity.
Qed.

Lemma chdir_fails (dirpath : string) (h : list event) (e : exn) :
  os_chdir w h dirpath = Some e ->
  chdir w dirpath h =
    (SysExit None,
     Print (format_exc w e)
       :: Print ("ERROR: Couldn't chdir into " ++ dirpath ++ ". Exiting.")%string
       :: Chdir dirpath :: h).
Proof.
  intros H. unfold chdir, try_except, os_chdir_. rewrite H. reflexivity.
Qed.

Lemma split_checkout (t : string) :
  split ("git checkout tags/" ++ t)
  = "git" :: "checkout" :: split_from "tags/" t.
Proof. reflexivity. Qed.

Lemma call_ok (command : string) (h : list event) :
  (forall h' argv, subprocess_call w h' argv = None) ->
  split command <> [] ->
  call w command h
  = (Return tt, Subprocess (split command) :: Print command :: h).
Proof. intros H Hne. now apply call_returns, launch_returns. Qed.

Lemma install_prereqs_run (h : list event) :
  launched w h prereqs_trace ->
  install_prereqs w h = (Return tt, rev prereqs_trace ++ h).
Proof.
  intros (_ & _ & H1 & _ & H2 & _ & H3 & _).
  unfold install_prereqs.
  erewrite bind_return; [| reflexivity].
  erewrite bind_return; [| apply call_returns, H1].
  erewrite bind_return; [| apply call_returns, H2].
  apply call_returns, H3.
Qed.

Lemma launched_app (h : list event) (t1 t2 : list event) :
  launched w h (t1 ++ t2) -> launched w h t1.
Proof.
  revert h. induction t1 as [| e t1 IH]; intros h; [constructor |].
  cbn [app launched]. intros [H1 H2]. split; [exact H1 | now apply IH].
Qed.


(** [main] up to the gate, when the launches of the Prerequisite
    Installer, if it runs, return. *)
Lemma main_to_gate (a : Namespace) :
  launched w [] (before_gate a) ->
  main w a [] =
    (go <- confirm w a ;; if go then pipeline w a (make_dirs w a) else ret tt)
      (rev (before_gate a)).
Proof.
  unfold main, before_gate. destruct (prereqs a); intros H.
  - apply launched_app in H.
    erewrite bind_return; [| apply install_prereqs_run, H].
    rewrite rev_app_distr, app_nil_r. reflexivity.
  - reflexivity.
Qed.

Lemma confirm_forced (a : Namespace) (h : list event) :
  force a = true -> confirm w a h = (Return true, h).
Proof. intros H. unfold confirm. rewrite H. reflexivity. Qed.

Lemma confirm_failed_read (a : Namespace) (h : list event) (e : exn) :
  force a = false -> read_line w h = inl e ->
  confirm w a h = (Raise e, Input prompt :: h).
Proof.
  intros Hf Hr. unfold confirm. rewrite Hf. cbn [negb].
  unfold bind, input. rewrite Hr. reflexivity.
Qed.

Lemma confirm_yes (a : Namespace) (h : list event) (line : string) :
  force a = false -> read_line w h = inr line -> says_yes line = true ->
  confirm w a h = (Return true, Input prompt :: h).
Proof.
  intros Hf Hr Hy. unfold confirm. rewrite Hf. cbn [negb].
  unfold bind, input, try_except. rewrite Hr.
  destruct line as [| c line]; [discriminate |].
  simpl in *. rewrite Hy. reflexivity.
Qed.

Lemma confirm_no (a : Namespace) (h : list event) (line : string) :
  force a = false -> read_line w h = inr line -> says_yes line = false ->
  confirm w a h = (Return false, rev (farewell w line) ++ Input prompt :: h).
Proof.
  intros Hf Hr Hy. unfold confirm. rewrite Hf. cbn [negb].
  unfold bind, input, try_except. rewrite Hr.
  destruct line as [| c line]; [reflexivity |].
  simpl in *. rewrite Hy. reflexivity.
Qed.

(** A refusal at the gate ends the run there. *)
Lemma main_refused (a : Namespace) (line : string) :
  launched w [] (before_gate a) ->
  force a = false ->
  read_line w (rev (before_gate a)) = inr line ->
  says_yes line = false ->
  run (main w a) =
    (Return tt, before_gate a ++ Input prompt :: farewell w line).
Proof.
  intros Hl Hf Hr Hy. unfold run. rewrite main_to_gate by exact Hl.
  unfold bind at 1. rewrite (confirm_no a _ _ Hf Hr Hy).
  cbn [ret]. rewrite rev_app_distr. cbn [rev].
  now rewrite !rev_involutive, <- app_assoc.
Qed.

Lemma main_accepted (a : Namespace) (line : string) :
  launched w [] (before_gate a) ->
  force a = false ->
  read_line w (rev (before_gate a)) = inr line ->
  says_yes line = true ->
  main w a [] =
    pipeline w a (make_dirs w a) (Input prompt :: rev (before_gate a)).
Proof.
  intros Hl Hf Hr Hy. rewrite main_to_gate by exact Hl.
  unfold bind at 1. now rewrite (confirm_yes a _ _ Hf Hr Hy).
Qed.

(** The pipeline always attempts to enter the root directory. *)
Lemma pipeline_enters_root (a : Namespace) (d : Dirs) (h : list event) :
  In (Chdir (root d)) (snd (pipeline w a d h)).
Proof.
  unfold pipeline.
  apply bind_keeps with (Q := within d).
  { intros _. apply (emits_bind (within d)).
    - unfold configure_build, load_build_options, chdir, call. emitting;
        unfold within; simpl; auto.
    - intros _. unfold build, install, chdir, call.
      emitting; unfold within; simpl; auto. }
  unfold download_source. unfold bind at 1. cbn [print emit].
  apply bind_keeps with (Q := within d).
  { intros _. unfold chdir, call. emitting; unfold within; simpl; auto. }
  unfold chdir, try_except, os_chdir_.
  destruct (os_chdir w _ (root d)); simpl; auto.
Qed.

Lemma before_gate_quiet_dirs (a : Namespace) (p : string) :
  ~ In (Chdir p) (before_gate a).
Proof.
  unfold before_gate, shown_options, prereqs_trace.
  destruct (prereqs a); simpl; intuition discriminate.
Qed.

Lemma farewell_quiet (line : string) : effects (farewell w line) = [].
Proof. destruct line; reflexivity. Qed.

End Steps.

(* ================================================================== *)
(** * The end-to-end scenario *)
(* ================================================================== *)

Section EndToEnd.

Variable w : world.
Hypothesis chdir_succeeds : forall h p, os_chdir w h p = None.
Hypothesis makedirs_fine :
  forall h p, os_makedirs w h p = None \/ os_makedirs w h p = Some FileExistsError.
Hypothesis launches_return : forall h argv, subprocess_call w h argv = None.

(** Replace the split of a closed command line by its tokens. *)
Ltac tokens :=
  repeat match goal with
         | |- context [split ?c] =>
             let v := eval vm_compute in (split c) in
             change (split c) with v
         end.



End EndToEnd.



(* ================================================================== *)
(** * The confirmation gate *)
(* ================================================================== *)

(** C2, as stated, fails: when the console read fails, [input] raises
    outside the [try] block, the exception leaves [install_opencv]
    uncaught and the interpreter exits with status 1. *)
Lemma failed_read_is_not_a_clean_abort :
  force Sample.quiet = false
  /\ run (main (Sample.calm (inl EOFError)) Sample.quiet)
     = (Raise EOFError,
        before_gate Sample.quiet ++ [Input prompt])
  /\ exit_status (fst (run (main (Sample.calm (inl EOFError)) Sample.quiet)))
     = 1%Z.
Proof. evaluated. Qed.

(** The script does not trim: a consent after a blank is a refusal. *)
Example blank_before_yes :
  trimmed_says_yes " yes" = true
  /\ run (main (Sample.calm (inr " yes")) Sample.quiet)
     = (Return tt, before_gate Sample.quiet ++ [Input prompt; Print "Exiting."]).
Proof. evaluated. Qed.

(** C2 (amended): with force off, once the gate is reached (the
    launches of the Prerequisite Installer, if it ran, returned), a line
    that was read lets the run go on to the pipeline exactly when its
    first character, as read and lower-cased, is y; any other line, the
    empty one included, ends the run at the gate with nothing but the
    farewell printed and exit status 0; a failed read instead leaves the
    script as an uncaught exception, exit status 1. *)
Theorem gate_decides (w : world) (a : Namespace) :
  force a = false ->
  launched w [] (before_gate a) ->
  match read_line w (rev (before_gate a)) with
  | inr line =>
      (says_yes line = true <->
       In (Chdir (root (make_dirs w a))) (snd (run (main w a))))
      /\ (says_yes line = true ->
          main w a [] =
            pipeline w a (make_dirs w a) (Input prompt :: rev (before_gate a)))
      /\ (says_yes line = false ->
          run (main w a) =
            (Return tt, before_gate a ++ Input prompt :: farewell w line)
          /\ effects (Input prompt :: farewell w line) = []
          /\ exit_status (fst (run (main w a))) = 0%Z)
  | inl e =>
      run (main w a) = (Raise e, before_gate a ++ [Input prompt])
      /\ exit_status (fst (run (main w a))) = 1%Z
  end.
Proof.
  intros Hf Hl.
  destruct (read_line w (rev (before_gate a))) as [e | line] eqn:Hr.
  - assert (E : run (main w a) = (Raise e, before_gate a ++ [Input prompt])).
    { unfold run. rewrite main_to_gate by exact Hl. unfold bind at 1.
      rewrite (confirm_failed_read w a _ _ Hf Hr).
      cbn [rev]. now rewrite rev_involutive. }
    rewrite E. split; reflexivity.
  - assert (No : says_yes line = false ->
                 run (main w a) =
                   (Return tt, before_gate a ++ Input prompt :: farewell w line))
      by (intros Hy; now apply main_refused).
    split; [| split].
    + split.
      * intros Hy. unfold run.
        rewrite (main_accepted w a _ Hl Hf Hr Hy).
        pose proof (pipeline_enters_root w a (make_dirs w a)
                      (Input prompt :: rev (before_gate a))) as Hin.
        destruct (pipeline w a (make_dirs w a) _) as [r h]. simpl in *.
        now apply in_rev in Hin.
      * intros Hin. destruct (says_yes line) eqn:Hy; [reflexivity | exfalso].
        rewrite (No eq_refl) in Hin. simpl in Hin.
        apply in_app_or in Hin as [Hin | Hin].
        -- now apply before_gate_quiet_dirs in Hin.
        -- destruct Hin as [Hin | Hin]; [discriminate |].
           destruct line; simpl in Hin; intuition discriminate.
    + intros Hy. now apply main_accepted with (line := line).
    + intros Hy. rewrite (No Hy). repeat split.
      simpl. apply farewell_quiet.
Qed.

Lemma gate_decides_witness :
  In (Chdir "/home/user")
     (snd (run (main (Sample.calm (inr "Yes")) Sample.quiet))).
Proof.
  assert (L : launched (Sample.calm (inr "Yes")) [] (before_gate Sample.quiet))
    by (vm_compute; tauto).
  pose proof (gate_decides (Sample.calm (inr "Yes")) Sample.quiet eq_refl L)
    as H.
  cbn [read_line Sample.calm] in H. destruct H as (H & _).
  apply H. reflexivity.
Defined.

(** C3, as stated, fails: with the default configuration the three
    package-manager commands have run before the gate asks. *)
Lemma prereqs_run_before_the_gate :
  force Sample.bare = false
  /\ trimmed_says_yes "n" = false
  /\ run (main (Sample.calm (inr "n")) Sample.bare)
     = (Return tt, before_gate Sample.bare ++ [Input prompt; Print "Exiting."])
  /\ effects (before_gate Sample.bare)
     = [ Subprocess ["sudo"; "apt-get"; "update"];
         Subprocess ["sudo"; "apt-get"; "upgrade"];
         Subprocess (split apt_install) ]
  /\ effects (before_gate Sample.bare) <> [].
Proof. evaluated. Qed.

(** C3 (amended): with force off, once the gate is reached (the
    launches of the Prerequisite Installer, if it ran, returned),
    whenever the line read does not start, after trimming and
    lower-casing, with y, the run ends at the gate: no
    stage after the gate is invoked, so no clone, checkout, configure,
    build or install command is issued and no directory is entered or
    created.  Before the gate the script touches nothing exactly when
    prerequisite installation is off; when it is on, its three
    package-manager commands have already run. *)
Theorem refusal_stops_the_run (w : world) (a : Namespace) (line : string) :
  force a = false ->
  launched w [] (before_gate a) ->
  read_line w (rev (before_gate a)) = inr line ->
  trimmed_says_yes line = false ->
  run (main w a) = (Return tt, before_gate a ++ Input prompt :: farewell w line)
  /\ effects (Input prompt :: farewell w line) = []
  /\ effects (before_gate a)
     = (if prereqs a
        then [ Subprocess ["sudo"; "apt-get"; "update"];
               Subprocess ["sudo"; "apt-get"; "upgrade"];
               Subprocess (split apt_install) ]
        else [])
  /\ (prereqs a = false -> effects (snd (run (main w a))) = []).
Proof.
  intros Hf Hl Hr Hy. apply trimmed_refusal in Hy.
  assert (Q : effects (Input prompt :: farewell w line) = [])
    by (simpl; apply farewell_quiet).
  assert (B : effects (before_gate a)
              = (if prereqs a
                 then [ Subprocess ["sudo"; "apt-get"; "update"];
                        Subprocess ["sudo"; "apt-get"; "upgrade"];
                        Subprocess (split apt_install) ]
                 else []))
    by (unfold before_gate; destruct (prereqs a); reflexivity).
  rewrite (main_refused w a _ Hl Hf Hr Hy).
  repeat split; auto.
  intros Hp. simpl. unfold effects in *. rewrite filter_app, B, Hp.
  exact Q.
Qed.

Lemma refusal_stops_the_run_witness :
  effects (snd (run (main (Sample.calm (inr "  no")) Sample.quiet))) = [].
Proof.
  assert (L : launched (Sample.calm (inr "  no")) []
                (before_gate Sample.quiet))
    by (vm_compute; tauto).
  destruct (refusal_stops_the_run (Sample.calm (inr "  no")) Sample.quiet
              "  no" eq_refl L eq_refl eq_refl) as (_ & _ & _ & H).
  apply H. reflexivity.
Defined.

(* ================================================================== *)
(** * Fatal paths and exit status *)
(* ================================================================== *)





(* ================================================================== *)
(** * A missing root directory *)
(* ================================================================== *)

Lemma commands_app (t1 t2 : list event) :
  commands (t1 ++ t2) = commands t1 ++ commands t2.
Proof. apply flat_map_app. Qed.

(** C8: if the root directory cannot be entered when the Source Fetcher
    tries to, the pipeline ends right there: the failed change of
    directory is followed by the two diagnostic lines and a bare
    [sys.exit()], and neither the clone nor any later command line is
    printed or launched.  For the whole process: the only commands of the
    run are those issued before the gate. *)
Theorem missing_root_stops (w : world) (a : Namespace) (h : list event)
  (e : exn) :
  os_chdir w (Print "Downloading source..." :: h) (root (make_dirs w a))
  = Some e ->
  let d := make_dirs w a in
  let last_words :=
    [ Print "Downloading source...";
      Chdir (root d);
      Print ("ERROR: Couldn't chdir into " ++ root d ++ ". Exiting.")%string;
      Print (format_exc w e) ] in
  pipeline w a d h = (SysExit None, rev last_words ++ h)
  /\ commands last_words = []
  /\ command_lines last_words = []
  /\ (main w a [] = pipeline w a d h ->
      run (main w a) = (SysExit None, rev h ++ last_words)
      /\ commands (snd (run (main w a))) = commands (rev h)).
Proof.
  intros H d last_words.
  assert (E : pipeline w a d h = (SysExit None, rev last_words ++ h)).
  { unfold pipeline. apply bind_exit.
    unfold download_source.
    erewrite bind_return; [| reflexivity].
    apply bind_exit. now apply chdir_fails. }
  repeat split; auto.
  - unfold run. rewrite H0, E. f_equal.
    rewrite rev_app_distr. now rewrite rev_involutive.
  - unfold run. rewrite H0, E. cbn [snd].
    rewrite rev_app_distr, rev_involutive, commands_app.
    apply app_nil_r.
Qed.

Lemma missing_root_stops_witness :
  commands (snd (run (main Sample.no_root (Sample.forced "")))) = [].
Proof.
  destruct (missing_root_stops Sample.no_root (Sample.forced "")
              (rev (before_gate (Sample.forced "")))
              (OSError "[Errno 2] No such file or directory") eq_refl)
    as (_ & _ & _ & H).
  destruct (H eq_refl) as (_ & C). rewrite C. reflexivity.
Defined.

(* ================================================================== *)
(** * The build options *)
(* ================================================================== *)

Section BuildOptions.

Variable w : world.

Lemma for_each_print (l : list (string * string)) (h : list event) :
  for_each l (fun kv => print (format_pair kv)) h
  = (Return tt, rev (map (fun kv => Print (format_pair kv)) l) ++ h).
Proof.
  revert h. induction l as [| kv l IH]; intros h; [reflexivity |].
  cbn [for_each map rev]. erewrite bind_return; [| reflexivity].
  rewrite IH, <- app_assoc. reflexivity.
Qed.

Lemma load_missing (a : Namespace) (h : list event) :
  build_options_file a = "" \/ stat_ok w h (build_options_file a) = false ->
  load_build_options w a h = (Return (PyDict DEFAULT_BUILD_OPTIONS), h).
Proof.
  intros H. unfold load_build_options, bind, os_path_exists.
  destruct (build_options_file a) as [| c f]; [reflexivity |].
  destruct H as [H | H]; [discriminate |]. now rewrite H.
Qed.

Lemma load_dict (a : Namespace) (h : list event)
  (entries : list (string * string)) :
  json_load w h (build_options_file a) = inr (PyDict entries) ->
  load_build_options w a h
  = (Return (PyDict match entries with
                    | [] => DEFAULT_BUILD_OPTIONS
                    | _ => entries
                    end), h)
    \/ load_build_options w a h = (Return (PyDict DEFAULT_BUILD_OPTIONS), h).
Proof.
  intros H. unfold load_build_options, bind, os_path_exists, open_json_load.
  destruct (build_options_file a) as [| c f]; [now right |].
  destruct (stat_ok w h (String c f)); [| now right].
  rewrite H. left. now destruct entries.
Qed.

Lemma load_entries (a : Namespace) (h : list event)
  (entries : list (string * string)) :
  build_options_file a <> "" ->
  stat_ok w h (build_options_file a) = true ->
  json_load w h (build_options_file a) = inr (PyDict entries) ->
  entries <> [] ->
  load_build_options w a h = (Return (PyDict entries), h).
Proof.
  intros Hf Hs H Hne.
  unfold load_build_options, bind, os_path_exists, open_json_load.
  destruct (build_options_file a) as [| c f]; [contradiction |].
  rewrite Hs, H. destruct entries; [contradiction | reflexivity].
Qed.


Variables (a : Namespace) (d : Dirs) (h0 : list event).

Hypothesis makedirs_fine :
  os_makedirs w h0 (build_ d) = None
  \/ os_makedirs w h0 (build_ d) = Some FileExistsError.
Hypothesis chdir_succeeds :
  os_chdir w (Makedirs (build_ d) :: h0) (build_ d) = None.

(** [configure_build] up to the loading of the options. *)
Lemma configure_build_to_load :
  configure_build w a d h0 =
    (build_options <- load_build_options w a ;;
     print "Building OpenCV with the following options:" ;;
     shown <- lift (items build_options) ;;
     for_each shown (fun kv => print (format_pair kv)) ;;
     print nl ;;
     flags <- lift (items build_options) ;;
     call w (cmake_call flags))
      (Chdir (build_ d) :: Makedirs (build_ d) :: h0).
Proof.
  unfold configure_build.
  erewrite bind_return.
  2:{ unfold try_except, os_makedirs_.
      destruct makedirs_fine as [-> | ->]; reflexivity. }
  erewrite bind_return; [reflexivity |].
  now apply chdir_ok.
Qed.

(** Once the options are loaded, [configure_build] prints them and
    attempts the launch of cmake; how it ends is how the launch ends. *)
Lemma configure_build_with (entries : list (string * string)) :
  load_build_options w a (Chdir (build_ d) :: Makedirs (build_ d) :: h0)
  = (Return (PyDict entries), Chdir (build_ d) :: Makedirs (build_ d) :: h0) ->
  configure_build w a d h0
  = (fst (subprocess_call_ w (split (cmake_call entries))
            (rev (configuring d entries) ++ h0)),
     rev (configured d entries) ++ h0).
Proof.
  intros H. rewrite configure_build_to_load.
  erewrite bind_return; [| exact H].
  erewrite bind_return; [| reflexivity].
  erewrite bind_return; [| reflexivity].
  erewrite bind_return; [| apply for_each_print].
  erewrite bind_return; [| reflexivity].
  erewrite bind_return; [| reflexivity].
  rewrite call_eq.
  unfold configured, configuring.
  rewrite !rev_app_distr, <- !app_assoc. reflexivity.
Qed.

Lemma configure_build_with_ok (entries : list (string * string)) :
  load_build_options w a (Chdir (build_ d) :: Makedirs (build_ d) :: h0)
  = (Return (PyDict entries), Chdir (build_ d) :: Makedirs (build_ d) :: h0) ->
  subprocess_call w (rev (configuring d entries) ++ h0)
    (split (cmake_call entries)) = None ->
  configure_build w a d h0 = (Return tt, rev (configured d entries) ++ h0).
Proof.
  intros H L. rewrite (configure_build_with entries H).
  now rewrite (launch_cmake w _ _ L).
Qed.

End BuildOptions.

(** C5: whenever the options file does not exist (the empty default
    path never does) or exists and loads as an empty mapping, the Build
    Configurer uses exactly the built-in option set: it prints the seven
    defaults and launches cmake with their seven flag pairs, never with
    none; it returns when that launch does. *)
Theorem defaults_when_nothing_loaded (w : world) (a : Namespace)
  (h : list event) :
  build_options_file a = ""
  \/ stat_ok w h (build_options_file a) = false
  \/ json_load w h (build_options_file a) = inr (PyDict []) ->
  load_build_options w a h = (Return (PyDict DEFAULT_BUILD_OPTIONS), h)
  /\ (forall d h0,
         h = Chdir (build_ d) :: Makedirs (build_ d) :: h0 ->
         os_makedirs w h0 (build_ d) = None
         \/ os_makedirs w h0 (build_ d) = Some FileExistsError ->
         os_chdir w (Makedirs (build_ d) :: h0) (build_ d) = None ->
         snd (configure_build w a d h0)
         = rev (configured d DEFAULT_BUILD_OPTIONS) ++ h0
         /\ (subprocess_call w
               (rev (configuring d DEFAULT_BUILD_OPTIONS) ++ h0)
               (split (cmake_call DEFAULT_BUILD_OPTIONS)) = None ->
             configure_build w a d h0
             = (Return tt, rev (configured d DEFAULT_BUILD_OPTIONS) ++ h0)))
  /\ (forall d,
         commands (configured d DEFAULT_BUILD_OPTIONS)
         = [ [ "cmake";
               "-D"; "CMAKE_BUILD_TYPE=RELEASE";
               "-D"; "CMAKE_INSTALL_PREFIX=/usr/local";
               "-D"; "INSTALL_C_EXAMPLES=OFF";
               "-D"; "INSTALL_PYTHON_EXAMPLES=OFF";
               "-D"; "BUILD_OPENCV_PYTHON2=ON";
               "-D"; "PYTHON2_INCLUDE_DIR=/usr/include/python2.7";
               "-D"; "BUILD_EXAMPLES=OFF";
               ".." ] ]).
Proof.
  intros H.
  assert (L : load_build_options w a h
              = (Return (PyDict DEFAULT_BUILD_OPTIONS), h)).
  { destruct H as [H | [H | H]].
    - apply load_missing. now left.
    - apply load_missing. now right.
    - destruct (load_dict w a h [] H) as [E | E]; exact E. }
  split; [exact L |]. split; [| reflexivity].
  intros d h0 -> Hm Hc. split.
  - now rewrite (configure_build_with w a d h0 Hm Hc _ L).
  - intros Hl. now apply configure_build_with_ok.
Qed.

(** C6 (amended): for every non-empty mapping loaded from the options
    file, the cmake command line is [cmake ], one [-D key=value ] per
    entry in the mapping's order, and [ ..]; when no key and no value
    holds whitespace, the argument vector launched is [cmake], one pair
    of tokens [-D], [key=value] per entry in that order, and [..],
    nothing added and nothing left out. *)
Theorem one_flag_per_entry (entries : list (string * string)) :
  entries <> [] ->
  cmake_call entries = ("cmake " ++ joined_flags entries ++ " ..")%string
  /\ (Forall plain entries ->
      split (cmake_call entries) = flag_tokens entries)
  /\ (forall d,
         command_lines (configured d entries) = [cmake_call entries]
         /\ commands (configured d entries) = [split (cmake_call entries)])
  /\ (forall w a d h0,
         os_makedirs w h0 (build_ d) = None
         \/ os_makedirs w h0 (build_ d) = Some FileExistsError ->
         os_chdir w (Makedirs (build_ d) :: h0) (build_ d) = None ->
         let h := Chdir (build_ d) :: Makedirs (build_ d) :: h0 in
         build_options_file a <> "" ->
         stat_ok w h (build_options_file a) = true ->
         json_load w h (build_options_file a) = inr (PyDict entries) ->
         snd (configure_build w a d h0) = rev (configured d entries) ++ h0
         /\ (subprocess_call w (rev (configuring d entries) ++ h0)
               (split (cmake_call entries)) = None ->
             configure_build w a d h0
             = (Return tt, rev (configured d entries) ++ h0))).
Proof.
  intros Hne.
  assert (forall l t, commands (map (fun kv => Print (format_pair kv)) l ++ t)
                      = commands t) as C.
  { intros l t. induction l; simpl; auto. }
  assert (forall l s t,
             command_lines
               (Print s :: map (fun kv => Print (format_pair kv)) l
                  ++ Print nl :: t)
             = command_lines (Print nl :: t)) as CL.
  { intros l. induction l as [| x l IH]; intros s t; [reflexivity |].
    cbn [map app]. rewrite <- (IH (format_pair x) t). reflexivity. }
  split; [| split; [| split]].
  - unfold cmake_call. now rewrite args_string_joined.
  - apply split_cmake_call.
  - intros d. split.
    + unfold configured. cbn [app].
      change (command_lines (Makedirs ?p :: Chdir ?q :: ?r))
        with (command_lines r).
      rewrite CL. reflexivity.
    + unfold configured. cbn [app commands flat_map]. unfold commands in C.
      rewrite C. reflexivity.
  - intros w a d h0 Hm Hc h Hf Hs H.
    assert (L : load_build_options w a h = (Return (PyDict entries), h))
      by now apply load_entries.
    split.
    + now rewrite (configure_build_with w a d h0 Hm Hc _ L).
    + intros Hl. now apply configure_build_with_ok.
Qed.

Lemma defaults_when_nothing_loaded_witness :
  json_load (Sample.with_file (inr (PyDict []))) [] "options.json"
  = inr (PyDict [])
  /\ load_build_options (Sample.with_file (inr (PyDict [])))
       (Sample.forced "options.json") []
     = (Return (PyDict DEFAULT_BUILD_OPTIONS), []).
Proof.
  split; [reflexivity |].
  destruct (defaults_when_nothing_loaded
              (Sample.with_file (inr (PyDict [])))
              (Sample.forced "options.json") []
              (or_intror (or_intror eq_refl)))
    as (E & _).
  exact E.
Defined.

(** C6, as stated, fails: a value that holds a blank is cut in two by
    [command.split()], so cmake gets a token that belongs to no pair. *)
Lemma blank_splits_a_flag :
  let entries := [("CMAKE_INSTALL_PREFIX", "/opt/my dir")] in
  commands
    (snd (run (main (Sample.with_file (inr (PyDict entries)))
                 (Sample.forced "options.json"))))
  = [ ["git"; "clone"; "https://github.com/Itseez/opencv.git"];
      ["git"; "checkout"; "tags/3.3.1"];
      ["cmake"; "-D"; "CMAKE_INSTALL_PREFIX=/opt/my"; "dir"; ".."];
      ["make"; "-j"; "3"];
      ["sudo"; "make"; "install"];
      ["sudo"; "ldconfig"] ]
  /\ flag_tokens entries
     = ["cmake"; "-D"; "CMAKE_INSTALL_PREFIX=/opt/my dir"; ".."]
  /\ split (cmake_call entries) <> flag_tokens entries.
Proof. repeat split. discriminate. Qed.

Lemma one_flag_per_entry_witness :
  let entries := [("BUILD_EXAMPLES", "ON"); ("WITH_QT", "OFF")] in
  entries <> []
  /\ Forall plain entries
  /\ split (cmake_call entries)
     = ["cmake"; "-D"; "BUILD_EXAMPLES=ON"; "-D"; "WITH_QT=OFF"; ".."].
Proof.
  cbv zeta.
  assert (N : [("BUILD_EXAMPLES", "ON"); ("WITH_QT", "OFF")] <> [])
    by discriminate.
  assert (P : Forall plain [("BUILD_EXAMPLES", "ON"); ("WITH_QT", "OFF")])
    by (repeat constructor).
  split; [exact N |]. split; [exact P |].
  destruct (one_flag_per_entry _ N) as (_ & E & _).
  rewrite (E P). reflexivity.
Defined.

(* ================================================================== *)
(** * An options file that does not load *)
(* ================================================================== *)

Section Fetching.

Variable w : world.
Variable a : Namespace.

Hypothesis chdir_succeeds : forall h p, os_chdir w h p = None.
Hypothesis launches_return : forall h argv, subprocess_call w h argv = None.

Lemma download_source_run (d : Dirs) (h : list event) :
  download_source w a d h = (Return tt, rev (fetched a d) ++ h).
Proof.
  unfold download_source.
  erewrite bind_return; [| reflexivity].
  erewrite bind_return; [| now apply chdir_ok].
  erewrite bind_return;
    [| apply call_ok; [exact launches_return | vm_compute; discriminate]].
  erewrite bind_return; [| now apply chdir_ok].
  erewrite bind_return;
    [| apply call_ok;
       [exact launches_return | rewrite split_checkout; discriminate]].
  now apply chdir_ok.
Qed.

End Fetching.

Section BrokenOptionsFile.

Variable w : world.
Variables (a : Namespace) (e : exn).

Hypothesis chdir_succeeds : forall h p, os_chdir w h p = None.
Hypothesis makedirs_fine :
  forall h p, os_makedirs w h p = None \/ os_makedirs w h p = Some FileExistsError.
Hypothesis named : build_options_file a <> "".
Hypothesis there : forall h, stat_ok w h (build_options_file a) = true.
Hypothesis broken : forall h, json_load w h (build_options_file a) = inl e.


End BrokenOptionsFile.


(* ================================================================== *)
(** * The three directories *)
(* ================================================================== *)

(** C7, as stated, fails: for the file-system root, [os.path.join] adds
    no second separator. *)
Lemma source_dir_under_slash :
  let d := make_dirs (Sample.calm (inr "")) (Sample.forced_in "/") in
  root d = "/" /\ opencv d = "/opencv"
  /\ opencv d <> (root d ++ "/opencv")%string.
Proof. repeat split. discriminate. Qed.

Lemma opencv_shape (r : string) :
  exists x, path_join r "opencv" = (x ++ "opencv")%string.
Proof.
  unfold path_join. destruct r as [| c r].
  - now exists EmptyString.
  - destruct (endswith_sep (String c r)).
    + now exists (String c r).
    + exists (String c r ++ "/")%string. now rewrite append_assoc.
Qed.

(** C7 (amended): for every build directory, root is its real path,
    the build directory is the source directory followed by [/build],
    and the source directory is root followed by [/opencv] whenever root
    does not end in a separator (for the file-system root [/] it is
    [/opencv]); the three paths are computed once, before the fetch
    stage, and every directory the run enters or creates is one of
    them. *)
Theorem derived_directories (w : world) (a : Namespace) :
  let d := make_dirs w a in
  root d = realpath w (build_dir a)
  /\ build_ d = (opencv d ++ "/build")%string
  /\ (root d <> "" -> endswith_sep (root d) = false ->
      opencv d = (root d ++ "/opencv")%string)
  /\ (root d = "/" -> opencv d = "/opencv")
  /\ Forall (within d) (snd (run (main w a))).
Proof.
  intros d. split; [reflexivity |]. split; [| split; [| split]].
  - unfold d, make_dirs. cbn [build_ opencv].
    destruct (opencv_shape (realpath w (build_dir a))) as (x & ->).
    apply path_join_plain.
    + discriminate.
    + destruct x; discriminate.
    + apply (endswith_sep_append x "o" "pencv").
  - intros Hr He. unfold d, make_dirs in *. cbn [root opencv] in *.
    now apply path_join_plain.
  - unfold d, make_dirs. cbn [root opencv]. now intros ->.
  - destruct (main_within w a []) as (t & E & F).
    unfold run. fold d in F.
    destruct (main w a []) as [r h]. simpl in E. subst h.
    rewrite app_nil_r. cbn [snd].
    apply Forall_forall. intros x Hx. apply in_rev in Hx.
    now apply (proj1 (Forall_forall _ _) F).
Qed.

Lemma derived_directories_witness :
  let d := make_dirs (Sample.calm (inr "")) Sample.scenario in
  opencv d = "/tmp/x/opencv" /\ build_ d = "/tmp/x/opencv/build".
Proof.
  cbv zeta.
  destruct (derived_directories (Sample.calm (inr "")) Sample.scenario)
    as (_ & B & O & _).
  rewrite B, O; [split; reflexivity | discriminate | reflexivity].
Defined.

(* ================================================================== *)
(** * The command line *)
(* ================================================================== *)

Lemma argument_names_nothing (v : string) :
  classify v = IsArgument -> forall o, names o v = false.
Proof.
  unfold classify, names. destruct (option_of v); [discriminate |].
  intros _ o. now destruct o.
Qed.

Lemma classify_option (tok : string) (o : option_name) :
  classify tok = IsOption o -> option_of tok = Some o.
Proof.
  unfold classify. destruct (option_of tok) as [o' |].
  - now intros [= ->].
  - destruct tok as [| c tok]; [discriminate |].
    destruct (Ascii.eqb c "-") eqn:E.
    + apply Ascii.eqb_eq in E. subst c. destruct tok; discriminate.
    + destruct c as [[] [] [] [] [] [] [] []]; discriminate.
Qed.

(** What a successful parse leaves in the namespace, in terms of the
    option strings on the command line. *)
Lemma parse_loop_stores (n : nat) :
  forall argv ns extras a,
    length argv <= n ->
    parse_loop ns extras argv = Parsed a ->
    prereqs a = prereqs ns && negb (existsb (names OptPrereqs) argv)
    /\ force a = force ns || existsb (names OptForce) argv
    /\ (existsb (names OptTag) argv = false -> tag a = tag ns)
    /\ (existsb (names OptBuildDir) argv = false -> build_dir a = build_dir ns)
    /\ (existsb (names OptBuildOptionsFile) argv = false ->
        build_options_file a = build_options_file ns).
Proof.
  assert (Base : forall ns extras a,
             parse_loop ns extras [] = Parsed a ->
             prereqs a = prereqs ns && negb (existsb (names OptPrereqs) [])
             /\ force a = force ns || existsb (names OptForce) []
             /\ (existsb (names OptTag) [] = false -> tag a = tag ns)
             /\ (existsb (names OptBuildDir) [] = false ->
                 build_dir a = build_dir ns)
             /\ (existsb (names OptBuildOptionsFile) [] = false ->
                 build_options_file a = build_options_file ns)).
  { intros ns extras a H. simpl in H. destruct extras; [discriminate |].
    injection H as <-. simpl. now rewrite andb_true_r, orb_false_r. }
  induction n as [| n IH]; intros argv ns extras a Hlen H.
  - destruct argv; [now apply Base with (extras := extras) | simpl in Hlen; lia].
  - destruct argv as [| tok rest]; [now apply Base with (extras := extras) |].
    simpl in Hlen. cbn [parse_loop] in H. cbn [existsb].
    destruct (classify tok) as [o | |] eqn:Ec.
    + apply classify_option in Ec. unfold names at 1 3 5 7 9. rewrite Ec.
      destruct o.
      * discriminate.
      * destruct rest as [| v rest]; [discriminate |].
        destruct (classify v) eqn:Ev; try discriminate.
        apply IH in H; [| simpl in Hlen; lia].
        cbn [existsb]. rewrite !(argument_names_nothing _ Ev).
        cbn [store tag force build_dir prereqs build_options_file orb] in *.
        intuition discriminate.
      * apply IH in H; [| lia].
        cbn [store tag force build_dir prereqs build_options_file orb] in *.
        destruct H as (H1 & H2 & H3). rewrite H1, H2, orb_true_r.
        intuition.
      * destruct rest as [| v rest]; [discriminate |].
        destruct (classify v) eqn:Ev; try discriminate.
        apply IH in H; [| simpl in Hlen; lia].
        cbn [existsb]. rewrite !(argument_names_nothing _ Ev).
        cbn [store tag force build_dir prereqs build_options_file orb] in *.
        intuition discriminate.
      * apply IH in H; [| lia].
        cbn [store tag force build_dir prereqs build_options_file orb] in *.
        destruct H as (H1 & H2 & H3). rewrite H1, H2.
        cbn [negb]. rewrite andb_false_r. intuition.
      * destruct rest as [| v rest]; [discriminate |].
        destruct (classify v) eqn:Ev; try discriminate.
        apply IH in H; [| simpl in Hlen; lia].
        cbn [existsb]. rewrite !(argument_names_nothing _ Ev).
        cbn [store tag force build_dir prereqs build_options_file orb] in *.
        intuition discriminate.
    + rewrite !(argument_names_nothing _ Ec). cbn [orb].
      apply IH in H; [exact H | lia].
    + discriminate.
Qed.

(** C9: with no arguments the namespace holds tag 3.3.1, force off, the
    current directory as build directory, the empty options file and
    prerequisite installation on; on any command line that parses,
    prerequisite installation is on exactly when neither [-p] nor
    [--prereqs] is given (store_false), force is on exactly when [-f] or
    [--force] is given, and an option that is not given keeps its
    default; [__main__] runs the Prerequisite Installer exactly when the
    namespace has prerequisites on: off, the run is that of
    [install_opencv]; on, the heading is printed and the first
    package-manager command attempted before anything else, and when the
    installer's three launches return the run goes on with
    [install_opencv]. *)
Theorem option_defaults (w : world) :
  parse_command_line_args w []
  = Parsed {| tag := "3.3.1"; force := false; build_dir := getcwd w;
              prereqs := true; build_options_file := "" |}
  /\ (forall argv a,
         parse_command_line_args w argv = Parsed a ->
         prereqs a = negb (existsb (names OptPrereqs) argv)
         /\ force a = existsb (names OptForce) argv
         /\ (existsb (names OptTag) argv = false -> tag a = "3.3.1")
         /\ (existsb (names OptBuildDir) argv = false ->
             build_dir a = getcwd w)
         /\ (existsb (names OptBuildOptionsFile) argv = false ->
             build_options_file a = ""))
  /\ (forall tok, names OptPrereqs tok = true <->
                  tok = "-p" \/ tok = "--prereqs")
  /\ (forall a h,
         (prereqs a = false -> main w a h = install_opencv w a h)
         /\ (prereqs a = true ->
             exists t,
               snd (main w a h)
               = t ++ Subprocess ["sudo"; "apt-get"; "update"]
                   :: Print "sudo apt-get update"
                   :: Print "Installing prerequisites..." :: h)
         /\ (launched w h (if prereqs a then prereqs_trace else []) ->
             main w a h
             = install_opencv w a
                 ((if prereqs a then rev prereqs_trace else []) ++ h))).
Proof.
  split; [reflexivity |]. split; [| split].
  - intros argv a H. unfold parse_command_line_args in H.
    destruct (existsb is_other argv); [discriminate |].
    apply (parse_loop_stores (length argv)) in H; [| lia].
    exact H.
  - intros tok. split.
    + unfold names. destruct (option_of tok) as [[] |] eqn:E;
        try discriminate.
      intros _. unfold option_of in E.
      repeat match type of E with
             | context [String.eqb tok ?y] =>
                 destruct (String.eqb_spec tok y) as [? | ?];
                 [ subst tok; cbn [orb] in E; try discriminate E; auto
                 | cbn [orb] in E ]
             end.
      discriminate E.
    + intros [-> | ->]; reflexivity.
  - intros a h. unfold main. split; [| split].
    + now intros ->.
    + intros ->.
      destruct (bind_extends (install_prereqs w)
                  (fun _ => install_opencv w a) (fun _ => True) h
                  (fun _ => install_opencv_extends w a)) as (t1 & ->).
      unfold install_prereqs.
      erewrite bind_return; [| reflexivity].
      destruct (bind_extends (call w "sudo apt-get update")
                  (fun _ => call w "sudo apt-get upgrade" ;; call w apt_install)
                  (fun _ => True)
                  (Print "Installing prerequisites..." :: h))
        as (t2 & E).
      { intros _. unfold call. emitting; exact I. }
      exists (t1 ++ t2). rewrite <- app_assoc. f_equal.
      exact E.
    + destruct (prereqs a); intros H.
      * erewrite bind_return; [| apply install_prereqs_run, H]. reflexivity.
      * reflexivity.
Qed.

Lemma option_defaults_witness :
  parse_command_line_args (Sample.calm (inr ""))
    ["-t"; "4.0.0"; "--prereqs"; "-f"]
  = Parsed {| tag := "4.0.0"; force := true; build_dir := "/home/user";
              prereqs := false; build_options_file := "" |}
  /\ build_dir
       {| tag := "4.0.0"; force := true; build_dir := "/home/user";
          prereqs := false; build_options_file := "" |}
     = "/home/user".
Proof.
  split; [reflexivity |].
  destruct (option_defaults (Sample.calm (inr ""))) as (_ & H & _).
  destruct (H ["-t"; "4.0.0"; "--prereqs"; "-f"] _ eq_refl)
    as (_ & _ & _ & D & _).
  apply D. reflexivity.
Defined.

(* ================================================================== *)
(** * Further properties: what [call] launches *)
(* ================================================================== *)

Lemma split_from_words (s cur : string) :
  has_space cur = false ->
  Forall word (split_from cur s).
Proof.
  revert cur. induction s as [| c s IH]; intros cur Hcur; simpl.
  - destruct cur; constructor; [| constructor]. split; [discriminate | exact Hcur].
  - destruct (is_space c) eqn:Hc.
    + destruct cur.
      * now apply IH.
      * constructor; [split; [discriminate | exact Hcur] | now apply IH].
    + apply IH. rewrite has_space_append, Hcur. simpl. now rewrite Hc.
Qed.

(** X1: whatever line [call] is given, it prints the line and
    attempts one launch, and every token of the argument vector is
    non-empty and free of whitespace.  A line without a word gives the
    empty vector, on which [subprocess.call] raises [IndexError];
    otherwise [call] returns when the launch returns, dropping the exit
    status, and lets through whatever the launch raises. *)
Theorem call_launches_words (w : world) (command : string)
  (h : list event) :
  snd (call w command h) = Subprocess (split command) :: Print command :: h
  /\ Forall word (split command)
  /\ (split command = [] -> fst (call w command h) = Raise IndexError)
  /\ (split command <> [] ->
      fst (call w command h)
      = match subprocess_call w (Print command :: h) (split command) with
        | Some e => Raise e
        | None => Return tt
        end).
Proof.
  split; [reflexivity |]. split; [now apply split_from_words |].
  rewrite call_eq. cbn [fst]. unfold subprocess_call_. cbn [fst].
  split.
  - now intros ->.
  - intros H. destruct (split command); [contradiction | reflexivity].
Qed.

Lemma split_from_last (tok : string) :
  word tok -> split_from "" tok = [tok].
Proof.
  intros [Hne Hs].
  rewrite <- (append_empty_r tok) at 1.
  rewrite split_from_word by exact Hs. simpl.
  destruct tok; [contradiction | reflexivity].
Qed.

Lemma split_from_first (tok rest : string) :
  word tok ->
  split_from "" (tok ++ String " " rest) = tok :: split_from "" rest.
Proof.
  intros [Hne Hs]. rewrite split_from_word by exact Hs.
  now apply split_from_blank.
Qed.

(** X2: splitting undoes joining with single blanks: a command line
    written as words separated by one blank is launched as exactly
    those words. *)
Theorem split_concat (tokens : list string) :
  Forall word tokens ->
  split (String.concat " " tokens) = tokens.
Proof.
  unfold split. induction 1 as [| tok l Htok Hl IH]; [reflexivity |].
  destruct l as [| tok' l].
  - simpl. now apply split_from_last.
  - change (String.concat " " (tok :: tok' :: l))
      with (tok ++ String " " (String.concat " " (tok' :: l)))%string.
    rewrite split_from_first by exact Htok. now rewrite IH.
Qed.

Lemma split_concat_witness :
  Forall word ["sudo"; "make"; "install"]
  /\ split "sudo make install" = ["sudo"; "make"; "install"].
Proof.
  assert (W : Forall word ["sudo"; "make"; "install"])
    by (repeat constructor; discriminate).
  split; [exact W |]. exact (split_concat _ W).
Defined.

(** X3: the checkout is launched as the three tokens [git],
    [checkout], [tags/<tag>] exactly when the tag holds no whitespace;
    a tag with whitespace is cut into further tokens. *)
Theorem checkout_argv (a : Namespace) :
  split ("git checkout tags/" ++ tag a)%string
  = ["git"; "checkout"; ("tags/" ++ tag a)%string]
  <-> has_space (tag a) = false.
Proof.
  split.
  - intros E.
    pose proof (split_from_words ("git checkout tags/" ++ tag a) ""
                  eq_refl) as F.
    fold (split ("git checkout tags/" ++ tag a)) in F. rewrite E in F.
    inversion F as [| ? ? _ F1]. inversion F1 as [| ? ? _ F2].
    inversion F2 as [| ? ? [_ W] _].
    exact W.
  - intros H.
    change (split ("git checkout tags/" ++ tag a))
      with ("git" :: "checkout" :: split_from "" ("tags/" ++ tag a)).
    rewrite split_from_last; [reflexivity |].
    split; [discriminate |]. rewrite has_space_append. now rewrite H.
Qed.

(* ================================================================== *)
(** * Further properties: the gate *)
(* ================================================================== *)

(** X4: the gate lets the run go on exactly when force is on or the
    line read starts with [y] or [Y]; with force on nothing is read and
    nothing is logged. *)
Theorem consent (w : world) (a : Namespace) (h : list event) :
  (fst (confirm w a h) = Return true <->
   force a = true
   \/ exists c rest,
        read_line w h = inr (String c rest)
        /\ (c = "y"%char \/ c = "Y"%char))
  /\ (force a = true -> snd (confirm w a h) = h).
Proof.
  split.
  - destruct (force a) eqn:Hf.
    + rewrite (confirm_forced w a h Hf). split; auto.
    + destruct (read_line w h) as [e | line] eqn:Hr.
      * rewrite (confirm_failed_read w a h e Hf Hr). split.
        -- discriminate.
        -- intros [H | (c & rest & H & _)]; discriminate.
      * destruct (says_yes line) eqn:Hy.
        -- rewrite (confirm_yes w a h line Hf Hr Hy). split; [| reflexivity].
           intros _. right. apply says_yes_spec in Hy.
           destruct Hy as (c & rest & -> & Hc). now exists c, rest.
        -- rewrite (confirm_no w a h line Hf Hr Hy). split; [discriminate |].
           intros [H | (c & rest & H & Hc)]; [discriminate |].
           injection H as ->.
           assert (says_yes (String c rest) = true)
             by (apply says_yes_spec; now exists c, rest).
           congruence.
  - intros Hf. now rewrite (confirm_forced w a h Hf).
Qed.

Lemma pipeline_reads_nothing (w : world) (a : Namespace) (d : Dirs) :
  emits no_input (pipeline w a d).
Proof.
  unfold pipeline, download_source, configure_build, build, install,
    load_build_options, chdir, call.
  emitting; exact I.
Qed.

Lemma prompts_app (t1 t2 : list event) :
  prompts (t1 ++ t2) = prompts t1 ++ prompts t2.
Proof. apply flat_map_app. Qed.

Lemma prompts_none (t : list event) : Forall no_input t -> prompts t = [].
Proof.
  induction 1 as [| e t He _ IH]; [reflexivity |].
  destruct e; simpl in *; auto. contradiction.
Qed.

Lemma prompts_before_gate (a : Namespace) : prompts (before_gate a) = [].
Proof. unfold before_gate. now destruct (prereqs a). Qed.

Lemma prompts_farewell (w : world) (line : string) :
  prompts (farewell w line) = [].
Proof. now destruct line. Qed.

Lemma prompts_pipeline (w : world) (a : Namespace) (d : Dirs)
  (h : list event) :
  prompts (rev (snd (pipeline w a d h))) = prompts (rev h).
Proof.
  destruct (pipeline_reads_nothing w a d h) as (t & -> & F).
  rewrite rev_app_distr, prompts_app.
  rewrite (prompts_none (rev t)); [apply app_nil_r |].
  apply Forall_forall. intros e He. apply in_rev in He.
  now apply (proj1 (Forall_forall _ _) F).
Qed.

Lemma prompts_snoc (h : list event) (e : event) :
  prompts (rev (e :: h)) = prompts (rev h) ++ prompts [e].
Proof. cbn [rev]. apply prompts_app. Qed.

Lemma prompts_confirm (w : world) (a : Namespace) (h : list event) :
  prompts (rev (snd (confirm w a h)))
  = prompts (rev h) ++ (if force a then [] else [prompt]).
Proof.
  destruct (force a) eqn:Hf.
  - rewrite (confirm_forced w a h Hf). cbn [snd]. now rewrite app_nil_r.
  - destruct (read_line w h) as [e | line] eqn:Hr.
    + rewrite (confirm_failed_read w a h e Hf Hr). cbn [snd].
      now rewrite prompts_snoc.
    + destruct (says_yes line) eqn:Hy.
      * rewrite (confirm_yes w a h line Hf Hr Hy). cbn [snd].
        now rewrite prompts_snoc.
      * rewrite (confirm_no w a h line Hf Hr Hy). cbn [snd].
        rewrite rev_app_distr, rev_involutive, prompts_app, prompts_snoc.
        now rewrite prompts_farewell, app_nil_r.
Qed.

Lemma prompts_shown_options (a : Namespace) : prompts (shown_options a) = [].
Proof. reflexivity. Qed.

(** Once [install_opencv] is entered the console is asked exactly once
    with force off, never with force on. *)
Lemma prompts_install_opencv (w : world) (a : Namespace) (h : list event) :
  prompts (rev (snd (install_opencv w a h)))
  = prompts (rev h) ++ (if force a then [] else [prompt]).
Proof.
  change (install_opencv w a h)
    with ((go <- confirm w a ;;
           if go then pipeline w a (make_dirs w a) else ret tt)
            (rev (shown_options a) ++ h)).
  unfold bind.
  pose proof (prompts_confirm w a (rev (shown_options a) ++ h)) as Hc.
  rewrite rev_app_distr, rev_involutive, prompts_app, prompts_shown_options,
    app_nil_r in Hc.
  destruct (confirm w a (rev (shown_options a) ++ h)) as [[[] | s | e] hc];
    cbn [snd] in *; try exact Hc.
  now rewrite prompts_pipeline.
Qed.

Lemma prereqs_read_nothing (w : world) (a : Namespace) :
  emits no_input (if prereqs a then install_prereqs w else ret tt).
Proof.
  unfold install_prereqs, call. emitting; exact I.
Qed.

(** X5: in every run the console is asked at most once, and never with
    force on; with force off it is asked exactly once, with the one
    prompt, as soon as [install_opencv] is entered, that is, whenever
    the launches of the Prerequisite Installer, if it ran, returned. *)
Theorem asked_once (w : world) (a : Namespace) :
  let asked := prompts (snd (run (main w a))) in
  (asked = [] \/ asked = [prompt])
  /\ (force a = true -> asked = [])
  /\ (force a = false -> launched w [] (before_gate a) -> asked = [prompt])
  /\ (forall h,
         prompts (rev (snd (install_opencv w a h)))
         = prompts (rev h) ++ (if force a then [] else [prompt])).
Proof.
  cbv zeta.
  assert (E : prompts (snd (run (main w a))) = []
              \/ prompts (snd (run (main w a)))
                 = (if force a then [] else [prompt])).
  { unfold run, main, bind.
    destruct (prereqs_read_nothing w a []) as (t & E & F).
    rewrite app_nil_r in E.
    assert (Ht : prompts (rev t) = []).
    { apply prompts_none, Forall_forall. intros e He. apply in_rev in He.
      now apply (proj1 (Forall_forall _ _) F). }
    destruct ((if prereqs a then install_prereqs w else ret tt) [])
      as [[[] | s | e] h1]; cbn [snd] in E; subst h1.
    - right. pose proof (prompts_install_opencv w a t) as H.
      destruct (install_opencv w a t) as [r h2]. cbn [snd] in *.
      now rewrite H, Ht.
    - now left.
    - now left. }
  split; [| split; [| split]].
  - destruct E as [E | E]; [now left |].
    destruct (force a); [now left | now right].
  - intros Hf. rewrite Hf in E. now destruct E.
  - intros Hf Hl. unfold run. rewrite main_to_gate by exact Hl.
    pose proof (prompts_confirm w a (rev (before_gate a))) as Hc.
    rewrite rev_involutive, prompts_before_gate, Hf in Hc. cbn [app] in Hc.
    unfold bind.
    destruct (confirm w a (rev (before_gate a))) as [[[] | s | e] hc];
      cbn [snd] in *; try exact Hc.
    pose proof (prompts_pipeline w a (make_dirs w a) hc) as H.
    destruct (pipeline w a (make_dirs w a) hc) as [r h2]. cbn [snd] in *.
    now rewrite H.
  - apply prompts_install_opencv.
Qed.

Lemma asked_once_witness :
  prompts (snd (run (main (Sample.calm (inr "n")) Sample.bare))) = [prompt].
Proof.
  destruct (asked_once (Sample.calm (inr "n")) Sample.bare)
    as (_ & _ & H & _).
  apply H; [reflexivity |]. vm_compute. tauto.
Defined.

(* ================================================================== *)
(** * Further properties: invariants of the log *)
(* ================================================================== *)

Section Keeping.

Variable R : list event -> Prop.

Lemma keeps_ret {A : Type} (a : A) : keeps R (ret a).
Proof. intros h H. exact H. Qed.

Lemma keeps_raise {A : Type} (e : exn) : keeps R (@raise A e).
Proof. intros h H. exact H. Qed.

Lemma keeps_sys_exit {A : Type} : keeps R (@sys_exit A).
Proof. intros h H. exact H. Qed.

Lemma keeps_lift {A : Type} (r : exn + A) : keeps R (lift r).
Proof. destruct r; intros h H; exact H. Qed.

Lemma keeps_bind {A B : Type} (m : M A) (k : A -> M B) :
  keeps R m -> (forall a, keeps R (k a)) -> keeps R (bind m k).
Proof.
  intros Hm Hk h H. unfold bind. specialize (Hm h H).
  destruct (m h) as [[a | s | e] h']; simpl in *; auto.
  now apply Hk.
Qed.

Lemma keeps_try_except {A : Type} (body : M A) (handler : exn -> M A) :
  keeps R body -> (forall e, keeps R (handler e)) ->
  keeps R (try_except body handler).
Proof.
  intros Hm Hk h H. unfold try_except. specialize (Hm h H).
  destruct (body h) as [[a | s | e] h']; simpl in *; auto.
  now apply Hk.
Qed.

Lemma keeps_for_each {A : Type} (l : list A) (body : A -> M unit) :
  (forall x, keeps R (body x)) -> keeps R (for_each l body).
Proof.
  intros H. induction l as [| x l IH]; simpl.
  - apply keeps_ret.
  - apply keeps_bind; auto.
Qed.

Lemma keeps_if {A : Type} (b : bool) (m1 m2 : M A) :
  keeps R m1 -> keeps R m2 -> keeps R (if b then m1 else m2).
Proof. now destruct b. Qed.

Lemma keeps_match_exn {A : Type} (e : exn) (m1 m2 : M A) :
  keeps R m1 -> keeps R m2 ->
  keeps R (match e with FileExistsError => m1 | _ => m2 end).
Proof. now destruct e. Qed.

End Keeping.

Section Announced.

Variable w : world.

Lemma announced_quiet (e : event) (h : list event) :
  (forall argv, e <> Subprocess argv) -> announced h -> announced (e :: h).
Proof.
  intros He H. split; [| exact H]. destruct e; auto. now destruct (He argv).
Qed.

Lemma keeps_announced_print (s : string) : keeps announced (print s).
Proof. intros h H. now apply announced_quiet. Qed.

Lemma keeps_announced_input (s : string) : keeps announced (input w s).
Proof. intros h H. now apply announced_quiet. Qed.

Lemma keeps_announced_chdir (p : string) : keeps announced (os_chdir_ w p).
Proof. intros h H. now apply announced_quiet. Qed.

Lemma keeps_announced_makedirs (p : string) :
  keeps announced (os_makedirs_ w p).
Proof. intros h H. now apply announced_quiet. Qed.

Lemma keeps_announced_exists (p : string) :
  keeps announced (os_path_exists w p).
Proof. intros h H. exact H. Qed.

Lemma keeps_announced_load (p : string) :
  keeps announced (open_json_load w p).
Proof. intros h H. exact H. Qed.

(** [call] is where launches come from, and it announces them,
    however the launch ends. *)
Lemma keeps_announced_call (c : string) : keeps announced (call w c).
Proof.
  intros h H. rewrite call_log. cbn [announced]. repeat split; auto.
Qed.

Ltac keeping :=
  repeat
    match goal with
    | |- keeps _ (ret _) => apply keeps_ret
    | |- keeps _ (raise _) => apply keeps_raise
    | |- keeps _ sys_exit => apply keeps_sys_exit
    | |- keeps _ (lift _) => apply keeps_lift
    | |- keeps _ (print _) => apply keeps_announced_print
    | |- keeps _ (call _ _) => apply keeps_announced_call
    | |- keeps _ (input _ _) => apply keeps_announced_input
    | |- keeps _ (os_chdir_ _ _) => apply keeps_announced_chdir
    | |- keeps _ (os_makedirs_ _ _) => apply keeps_announced_makedirs
    | |- keeps _ (os_path_exists _ _) => apply keeps_announced_exists
    | |- keeps _ (open_json_load _ _) => apply keeps_announced_load
    | |- keeps _ (for_each _ _) => apply keeps_for_each; intros
    | |- keeps _ (if _ then _ else _) => apply keeps_if
    | |- keeps _ (match _ with FileExistsError => _ | _ => _ end) =>
        apply keeps_match_exn
    | |- keeps _ (try_except _ _) => apply keeps_try_except; intros
    | |- keeps _ (bind _ _) => apply keeps_bind; intros
    end.

Lemma main_announces (a : Namespace) : keeps announced (main w a).
Proof.
  unfold main, install_prereqs, install_opencv, confirm, pipeline,
    download_source, configure_build, build, install, load_build_options,
    chdir.
  keeping.
Qed.

Lemma announced_at (x y : list event) (argv : list string) :
  announced (x ++ Subprocess argv :: y) ->
  exists c y', y = Print c :: y' /\ split c = argv.
Proof.
  induction x as [| e x IH]; simpl.
  - intros [H _]. destruct y as [| [c | | | |] y']; try contradiction.
    now exists c, y'.
  - intros [_ H]. now apply IH.
Qed.

(** X6: nothing is launched unannounced: in every run, each launch
    stands right after the print of a line, and its argument vector is
    the split of that line. *)
Theorem launches_are_announced (a : Namespace) (t1 t2 : list event)
  (argv : list string) :
  snd (run (main w a)) = t1 ++ Subprocess argv :: t2 ->
  exists t0 c, t1 = t0 ++ [Print c] /\ split c = argv.
Proof.
  intros E. unfold run in E.
  pose proof (main_announces a [] I) as H.
  destruct (main w a []) as [r h]. simpl in *.
  assert (Eh : h = rev t2 ++ Subprocess argv :: rev t1).
  { rewrite <- (rev_involutive h), E, rev_app_distr. simpl.
    now rewrite <- app_assoc. }
  rewrite Eh in H. apply announced_at in H as (c & y' & Hy & Hc).
  exists (rev y'), c. split; [| exact Hc].
  rewrite <- (rev_involutive t1), Hy. reflexivity.
Qed.

End Announced.

Lemma launches_are_announced_witness :
  exists t0 c,
    [ Print "Installing prerequisites..."; Print "sudo apt-get update" ]
    = t0 ++ [Print c]
    /\ split c = ["sudo"; "apt-get"; "update"].
Proof.
  let t := eval vm_compute in
             (snd (run (main (Sample.calm (inr "n")) Sample.bare))) in
  match t with
  | ?e1 :: ?e2 :: Subprocess ?argv :: ?t2 =>
      apply (launches_are_announced (Sample.calm (inr "n")) Sample.bare
               [e1; e2] t2 argv)
  end.
  vm_compute. reflexivity.
Defined.

(* ================================================================== *)
(** * Further properties: where exceptions come from *)
(* ================================================================== *)

Section Raising.

Variable S : exn -> Prop.

Lemma raises_ret {A : Type} (a : A) : raises_only S (ret a).
Proof. intros h e. discriminate. Qed.

Lemma raises_emit (ev : event) : raises_only S (emit ev).
Proof. intros h e. discriminate. Qed.

Lemma raises_sys_exit {A : Type} : raises_only S (@sys_exit A).
Proof. intros h e. discriminate. Qed.

Lemma raises_bind {A B : Type} (m : M A) (k : A -> M B) :
  raises_only S m -> (forall a, raises_only S (k a)) ->
  raises_only S (bind m k).
Proof.
  intros Hm Hk h e. unfold bind. specialize (Hm h).
  destruct (m h) as [[a | s | e'] h']; simpl in *.
  - apply Hk.
  - discriminate.
  - intros [= ->]. now apply Hm.
Qed.

(** A bare [except] lets nothing of the body through. *)
Lemma raises_try_except {A : Type} (body : M A) (handler : exn -> M A) :
  (forall e, raises_only S (handler e)) ->
  raises_only S (try_except body handler).
Proof.
  intros Hk h e. unfold try_except.
  destruct (body h) as [[a | s | e'] h']; simpl; try discriminate.
  apply Hk.
Qed.

Lemma raises_for_each {A : Type} (l : list A) (body : A -> M unit) :
  (forall x, raises_only S (body x)) -> raises_only S (for_each l body).
Proof.
  intros H. induction l as [| x l IH]; simpl.
  - apply raises_ret.
  - apply raises_bind; auto.
Qed.

Lemma raises_if {A : Type} (b : bool) (m1 m2 : M A) :
  raises_only S m1 -> raises_only S m2 ->
  raises_only S (if b then m1 else m2).
Proof. now destruct b. Qed.

Lemma raises_match_exn {A : Type} (e : exn) (m1 m2 : M A) :
  raises_only S m1 -> raises_only S m2 ->
  raises_only S (match e with FileExistsError => m1 | _ => m2 end).
Proof. now destruct e. Qed.

End Raising.

Section Escapes.

Variable w : world.
Variable a : Namespace.

Lemma raises_input (s : string) : raises_only (escapes w a) (input w s).
Proof.
  intros h e. simpl. destruct (read_line w h) as [e' |] eqn:E; [| discriminate].
  intros [= ->]. left. now exists h.
Qed.

Lemma raises_exists (p : string) :
  raises_only (escapes w a) (os_path_exists w p).
Proof. intros h e. discriminate. Qed.

Lemma raises_load :
  raises_only (escapes w a) (open_json_load w (build_options_file a)).
Proof.
  intros h e. simpl.
  destruct (json_load w h (build_options_file a)) as [e' |] eqn:E;
    [| discriminate].
  intros [= ->]. right. right. left. now exists h.
Qed.

(** A launch of a command line that has a word raises only what the
    world makes it raise. *)
Lemma raises_call (c : string) :
  split c <> [] -> raises_only (escapes w a) (call w c).
Proof.
  intros Hne h e. rewrite call_eq. unfold subprocess_call_. cbn [fst].
  destruct (split c) as [| x l] eqn:E; [contradiction |].
  destruct (subprocess_call w (Print c :: h) (x :: l)) as [e' |] eqn:L;
    [| discriminate].
  intros [= ->]. right. left. now exists (Print c :: h), (x :: l).
Qed.

(** The command lines of the script all have a first word. *)
Ltac nonempty :=
  first [ rewrite split_checkout; discriminate
        | rewrite split_cmake; discriminate
        | vm_compute; discriminate ].

Lemma raises_len (v : pyvalue) : raises_only (escapes w a) (lift (len v)).
Proof.
  intros h e. destruct v; simpl; try discriminate.
  intros [= <-]. right. right. right. now left.
Qed.

Lemma raises_items (v : pyvalue) : raises_only (escapes w a) (lift (items v)).
Proof.
  intros h e. destruct v; simpl; try discriminate;
    intros [= <-]; right; right; right; now right.
Qed.

Ltac raising :=
  repeat
    match goal with
    | |- raises_only _ (ret _) => apply raises_ret
    | |- raises_only _ sys_exit => apply raises_sys_exit
    | |- raises_only _ (emit _) => apply raises_emit
    | |- raises_only _ (print _) => apply raises_emit
    | |- raises_only _ (call _ _) => apply raises_call; nonempty
    | |- raises_only _ (input _ _) => apply raises_input
    | |- raises_only _ (os_path_exists _ _) => apply raises_exists
    | |- raises_only _ (open_json_load _ _) => apply raises_load
    | |- raises_only _ (lift (len _)) => apply raises_len
    | |- raises_only _ (lift (items _)) => apply raises_items
    | |- raises_only _ (for_each _ _) => apply raises_for_each; intros
    | |- raises_only _ (if _ then _ else _) => apply raises_if
    | |- raises_only _ (match _ with FileExistsError => _ | _ => _ end) =>
        apply raises_match_exn
    | |- raises_only _ (try_except _ _) => apply raises_try_except; intros
    | |- raises_only _ (bind _ _) => apply raises_bind; intros
    end.

(** A failed [os.chdir] never surfaces as an exception. *)
Lemma chdir_raises_nothing (p : string) :
  raises_only (fun _ => False) (chdir w p).
Proof. unfold chdir. raising. Qed.

Lemma main_raises : raises_only (escapes w a) (main w a).
Proof.
  unfold main, install_prereqs, install_opencv, confirm, pipeline,
    download_source, configure_build, build, install, load_build_options,
    chdir.
  raising.
Qed.

(** X7: an exception that ends the run was raised by the console read,
    by the launch of a program, by the loading of the options file, or
    by [len] or [items] on what was loaded; a directory that cannot be
    entered or created never surfaces as an exception (those failures
    end in [sys.exit()]), the [IndexError] of an empty answer is caught
    at the gate, and no command line of the script is without a word,
    so no launch fails on an empty argument vector. *)
Theorem uncaught_exceptions (e : exn) :
  fst (run (main w a)) = Raise e ->
  escapes w a e
  /\ exit_status (fst (run (main w a))) = 1%Z
  /\ (forall p h, fst (chdir w p h) <> Raise e).
Proof.
  intros H. split; [| split].
  - apply (main_raises []). unfold run in H.
    now destruct (main w a []).
  - now rewrite H.
  - intros p h E. exact (chdir_raises_nothing p h e E).
Qed.

End Escapes.

Lemma uncaught_exceptions_witness :
  escapes (Sample.calm (inl EOFError)) Sample.quiet EOFError.
Proof.
  destruct (uncaught_exceptions (Sample.calm (inl EOFError)) Sample.quiet
              EOFError eq_refl) as (H & _).
  exact H.
Defined.

(* ================================================================== *)
(** * Further properties: the order of the stages *)
(* ================================================================== *)

Lemma commands_snoc (h : list event) (e : event) :
  commands (rev (e :: h)) = commands (rev h) ++ commands [e].
Proof. cbn [rev]. apply commands_app. Qed.

(** Bring [commands (rev (e1 :: ... :: en :: h))] to the commands of
    [rev h] followed by an explicit list. *)
Ltac tally :=
  cbn [fst snd];
  repeat rewrite commands_snoc;
  cbn [commands flat_map app];
  rewrite ?app_nil_r, <- ?app_assoc;
  cbn [app].

Ltac settle := tally; cbn [firstn]; rewrite ?app_nil_r; try reflexivity.

Section Issuing.

Variable w : world.

(** A computation that launches nothing. *)
Lemma issues_quiet {A : Type} (m : M A) :
  emits no_launch m -> issues m (fun _ => []).
Proof.
  intros H h. destruct (H h) as (t & E & F).
  exists [], 0. rewrite E. cbn [length firstn]. split; [lia |]. split; [| auto].
  rewrite rev_app_distr, commands_app, app_nil_r.
  assert (Ht : commands (rev t) = []).
  { assert (G : Forall no_launch (rev t)).
    { apply Forall_forall. intros e He. apply in_rev in He.
      now apply (proj1 (Forall_forall _ _) F). }
    induction G as [| e l He _ IH]; [reflexivity |].
    destruct e; simpl in *; auto. contradiction. }
  now rewrite Ht, app_nil_r.
Qed.

Lemma issues_call (c : string) : issues (call w c) (fun _ => [split c]).
Proof.
  intros h. exists [], 1. rewrite call_log. split; [simpl; lia |].
  split; [settle | reflexivity].
Qed.

Lemma issues_ret {A : Type} (a : A) : issues (ret a) (fun _ => []).
Proof.
  intros h. exists [], 0. cbn [ret snd fst length firstn].
  split; [lia |]. split; [now rewrite app_nil_r | reflexivity].
Qed.

(** A computation that raises at once has launched nothing and does not
    return. *)
Lemma issues_raise {A : Type} (e : exn)
  (F : list (string * string) -> list (list string)) :
  issues (@raise A e) F.
Proof.
  intros h. exists [], 0. cbn [raise snd fst firstn].
  split; [lia |]. split; [now rewrite app_nil_r | discriminate].
Qed.

Lemma issues_for (entries : list (string * string)) {A : Type} (m : M A)
  (F : list (string * string) -> list (list string)) :
  issues m (fun _ => F entries) -> issues m F.
Proof.
  intros H h. destruct (H h) as (_ & k & Hk). now exists entries, k.
Qed.

Lemma issues_bind_left {A B : Type} (m : M A) (k : A -> M B)
  (L : list (list string))
  (F : list (string * string) -> list (list string)) :
  issues m (fun _ => L) -> (forall a, issues (k a) F) ->
  issues (bind m k) (fun entries => L ++ F entries).
Proof.
  intros Hm Hk h. unfold bind.
  destruct (Hm h) as (_ & k1 & Hk1 & C1 & R1).
  destruct (m h) as [[a | s | e] h1]; cbn [fst snd] in *.
  - destruct (Hk a h1) as (entries & k2 & Hk2 & C2 & R2).
    exists entries, (length L + k2). rewrite length_app.
    split; [lia |]. split.
    + rewrite C2, C1, (R1 a eq_refl), firstn_all, <- app_assoc.
      f_equal. rewrite firstn_app_2. reflexivity.
    + intros b Hb. now rewrite (R2 b Hb).
  - exists [], k1. rewrite length_app. split; [lia |]. split.
    + rewrite C1. f_equal. rewrite firstn_app.
      replace (k1 - length L) with 0 by lia.
      cbn [firstn]. now rewrite app_nil_r.
    + discriminate.
  - exists [], k1. rewrite length_app. split; [lia |]. split.
    + rewrite C1. f_equal. rewrite firstn_app.
      replace (k1 - length L) with 0 by lia.
      cbn [firstn]. now rewrite app_nil_r.
    + discriminate.
Qed.

Lemma issues_bind_right {A B : Type} (m : M A) (k : A -> M B)
  (F : list (string * string) -> list (list string))
  (L : list (list string)) :
  issues m F -> (forall a, issues (k a) (fun _ => L)) ->
  issues (bind m k) (fun entries => F entries ++ L).
Proof.
  intros Hm Hk h. unfold bind.
  destruct (Hm h) as (entries & k1 & Hk1 & C1 & R1).
  exists entries.
  destruct (m h) as [[a | s | e] h1]; cbn [fst snd] in *.
  - destruct (Hk a h1) as (_ & k2 & Hk2 & C2 & R2).
    exists (length (F entries) + k2). rewrite length_app.
    split; [lia |]. split.
    + rewrite C2, C1, (R1 a eq_refl), firstn_all, <- app_assoc.
      f_equal. rewrite firstn_app_2. reflexivity.
    + intros b Hb. now rewrite (R2 b Hb).
  - exists k1. rewrite length_app. split; [lia |]. split.
    + rewrite C1. f_equal. rewrite firstn_app.
      replace (k1 - length (F entries)) with 0 by lia.
      cbn [firstn]. now rewrite app_nil_r.
    + discriminate.
  - exists k1. rewrite length_app. split; [lia |]. split.
    + rewrite C1. f_equal. rewrite firstn_app.
      replace (k1 - length (F entries)) with 0 by lia.
      cbn [firstn]. now rewrite app_nil_r.
    + discriminate.
Qed.

(** A value known beforehand can be passed on. *)
Lemma issues_bind_ret {A B : Type} (a : A) (k : A -> M B)
  (F : list (string * string) -> list (list string)) :
  issues (k a) F -> issues (bind (ret a) k) F.
Proof. intros H h. exact (H h). Qed.

Lemma issues_bind_raise {A B : Type} (e : exn) (k : A -> M B)
  (F : list (string * string) -> list (list string)) :
  issues (bind (raise e) k) F.
Proof. intros h. exact (issues_raise (A := B) e F h). Qed.

Ltac quiet :=
  apply issues_quiet;
  unfold chdir, load_build_options;
  emitting; exact I.

Variables (a : Namespace) (d : Dirs).

Lemma issues_download_source :
  issues (download_source w a d)
    (fun _ => [ split "git clone https://github.com/Itseez/opencv.git";
                split ("git checkout tags/" ++ tag a)%string ]).
Proof.
  unfold download_source.
  apply (issues_bind_left _ _ []); [quiet | intros _].
  apply (issues_bind_left _ _ []); [quiet | intros _].
  apply (issues_bind_left _ _ [_] (fun _ => [_])); [apply issues_call | intros _].
  apply (issues_bind_left _ _ []); [quiet | intros _].
  apply (issues_bind_left _ _ [_] (fun _ => [])); [apply issues_call | intros _].
  quiet.
Qed.

(** What [configure_build] does once the options are loaded. *)
Lemma issues_configuring (build_options : pyvalue) :
  issues
    (print "Building OpenCV with the following options:" ;;
     shown <- lift (items build_options) ;;
     for_each shown (fun kv => print (format_pair kv)) ;;
     print nl ;;
     flags <- lift (items build_options) ;;
     call w (cmake_call flags))
    (fun entries => [split (cmake_call entries)]).
Proof.
  apply (issues_bind_left _ _ []); [quiet | intros _].
  destruct build_options as [entries | n |]; cbn [items lift].
  - apply (issues_for entries).
    apply issues_bind_ret.
    apply (issues_bind_left _ _ [] (fun _ => [_])); [quiet | intros _].
    apply (issues_bind_left _ _ [] (fun _ => [_])); [quiet | intros _].
    apply issues_bind_ret. apply issues_call.
  - apply issues_bind_raise.
  - apply issues_bind_raise.
Qed.

Lemma issues_configure_build :
  issues (configure_build w a d)
    (fun entries => [split (cmake_call entries)]).
Proof.
  unfold configure_build.
  apply (issues_bind_left _ _ []); [quiet | intros _].
  apply (issues_bind_left _ _ []); [quiet | intros _].
  apply (issues_bind_left _ _ []); [quiet | intros build_options].
  apply issues_configuring.
Qed.

Lemma issues_build : issues (build w a d) (fun _ => [split "make -j 3"]).
Proof.
  unfold build.
  apply (issues_bind_left _ _ [] (fun _ => [_])); [quiet | intros _].
  apply issues_call.
Qed.

Lemma issues_install :
  issues (install w a d)
    (fun _ => [split "sudo make install"; split "sudo ldconfig"]).
Proof.
  unfold install.
  apply (issues_bind_left _ _ [] (fun _ => [_; _])); [quiet | intros _].
  apply (issues_bind_left _ _ [_] (fun _ => [_])); [apply issues_call | intros _].
  apply issues_call.
Qed.

Lemma issues_pipeline : issues (pipeline w a d) (stage_commands a).
Proof.
  unfold pipeline.
  apply (issues_bind_left _ _ [_; _]
           (fun entries => [split (cmake_call entries)] ++ [_; _; _]));
    [apply issues_download_source | intros _].
  apply issues_bind_right; [apply issues_configure_build | intros _].
  apply (issues_bind_left _ _ [_] (fun _ => [_; _]));
    [apply issues_build | intros _].
  apply issues_install.
Qed.

Lemma issues_prereqs :
  issues (if prereqs a then install_prereqs w else ret tt)
    (fun _ => commands (before_gate a)).
Proof.
  unfold before_gate. destruct (prereqs a).
  - unfold install_prereqs.
    apply (issues_bind_left _ _ [] (fun _ => [_; _; _])); [quiet | intros _].
    apply (issues_bind_left _ _ [_] (fun _ => [_; _]));
      [apply issues_call | intros _].
    apply (issues_bind_left _ _ [_] (fun _ => [_]));
      [apply issues_call | intros _].
    apply issues_call.
  - apply issues_ret.
Qed.

End Issuing.

Lemma confirm_commands (w : world) (a : Namespace) (h : list event) :
  commands (rev (snd (confirm w a h))) = commands (rev h).
Proof.
  destruct (force a) eqn:Hf.
  - now rewrite (confirm_forced w a h Hf).
  - destruct (read_line w h) as [e | line] eqn:Hr.
    + rewrite (confirm_failed_read w a h e Hf Hr). settle.
    + destruct (says_yes line) eqn:Hy.
      * rewrite (confirm_yes w a h line Hf Hr Hy). settle.
      * rewrite (confirm_no w a h line Hf Hr Hy). cbn [snd].
        rewrite rev_app_distr, rev_involutive, commands_app.
        destruct line; settle.
Qed.

(** From the gate on: nothing is launched, or an initial part of the
    six stage commands, all six when the pipeline returns. *)
Lemma install_opencv_commands (w : world) (a : Namespace) (h : list event) :
  exists entries k,
    k <= 6
    /\ commands (rev (snd (install_opencv w a h)))
       = commands (rev h) ++ firstn k (stage_commands a entries)
    /\ (fst (install_opencv w a h) = Return tt -> k = 0 \/ k = 6).
Proof.
  change (install_opencv w a h)
    with ((go <- confirm w a ;;
           if go then pipeline w a (make_dirs w a) else ret tt)
            (rev (shown_options a) ++ h)).
  unfold bind.
  pose proof (confirm_commands w a (rev (shown_options a) ++ h)) as Hc.
  rewrite rev_app_distr, rev_involutive, commands_app in Hc.
  change (commands (shown_options a)) with (@nil (list string)) in Hc.
  rewrite app_nil_r in Hc.
  destruct (confirm w a (rev (shown_options a) ++ h)) as [[[] | s | e] hc];
    cbn [snd] in Hc.
  - destruct (issues_pipeline w a (make_dirs w a) hc)
      as (entries & k & Hk & C & R).
    exists entries, k. split; [exact Hk |].
    split; [now rewrite C, Hc | intros E; right; now apply (R tt)].
  - exists [], 0. cbn [ret fst snd firstn].
    split; [lia |]. split; [now rewrite app_nil_r | now left].
  - exists [], 0. cbn [fst snd firstn].
    split; [lia |]. split; [now rewrite app_nil_r | now left].
  - exists [], 0. cbn [fst snd firstn].
    split; [lia |]. split; [now rewrite app_nil_r | now left].
Qed.

(** X8: the launches are never reordered and none is skipped: in every
    run, whatever the world answers, the commands attempted are an
    initial part of the commands of the Prerequisite Installer (when it
    is on) followed by clone, checkout, cmake, make, make install,
    ldconfig; and a run that falls through has attempted either all of
    them or, turned away at the gate, none after the installer's. *)
Theorem stages_in_order (w : world) (a : Namespace) :
  exists entries n,
    commands (snd (run (main w a)))
    = firstn n (commands (before_gate a) ++ stage_commands a entries)
    /\ (fst (run (main w a)) = Return tt ->
        commands (snd (run (main w a))) = commands (before_gate a)
        \/ commands (snd (run (main w a)))
           = commands (before_gate a) ++ stage_commands a entries).
Proof.
  assert (H : exists entries n,
             commands (rev (snd (main w a [])))
             = firstn n (commands (before_gate a) ++ stage_commands a entries)
             /\ (fst (main w a []) = Return tt ->
                 commands (rev (snd (main w a []))) = commands (before_gate a)
                 \/ commands (rev (snd (main w a [])))
                    = commands (before_gate a) ++ stage_commands a entries)).
  { unfold main, bind.
    destruct (issues_prereqs w a []) as (_ & k1 & Hk1 & C1 & R1).
    cbn [rev commands flat_map app] in C1.
    destruct ((if prereqs a then install_prereqs w else ret tt) [])
      as [[[] | s | e] h1]; cbn [fst snd] in *.
    - rewrite (R1 tt eq_refl), firstn_all in C1.
      destruct (install_opencv_commands w a h1) as (entries & k & Hk & C & R).
      exists entries, (length (commands (before_gate a)) + k).
      destruct (install_opencv w a h1) as [r h2]. cbn [fst snd] in *.
      rewrite C, C1, firstn_app_2. split; [reflexivity |].
      intros E. destruct (R E) as [-> | ->].
      + left. cbn [firstn]. now rewrite app_nil_r.
      + right. reflexivity.
    - exists [], k1. split; [| discriminate].
      rewrite C1, firstn_app.
      replace (k1 - length (commands (before_gate a))) with 0 by lia.
      cbn [firstn]. now rewrite app_nil_r.
    - exists [], k1. split; [| discriminate].
      rewrite C1, firstn_app.
      replace (k1 - length (commands (before_gate a))) with 0 by lia.
      cbn [firstn]. now rewrite app_nil_r. }
  unfold run. destruct (main w a []) as [r h]. exact H.
Qed.

(* ================================================================== *)
(** * Further properties: a run in which everything succeeds *)
(* ================================================================== *)

Lemma launches_prints (cwd : option string) (l : list (string * string))
  (t : list event) :
  launches cwd (map (fun kv => Print (format_pair kv)) l ++ t)
  = launches cwd t.
Proof. induction l; simpl; auto. Qed.

Section SuccessfulRun.

Variable w : world.
Variables (a : Namespace) (entries : list (string * string)).

Hypothesis chdir_succeeds : forall h p, os_chdir w h p = None.
Hypothesis makedirs_fine :
  forall h p, os_makedirs w h p = None \/ os_makedirs w h p = Some FileExistsError.
Hypothesis options :
  forall h, load_build_options w a h = (Return (PyDict entries), h).
Hypothesis launches_return : forall h argv, subprocess_call w h argv = None.

Lemma build_run (d : Dirs) (h : list event) :
  build w a d h = (Return tt, rev (built d) ++ h).
Proof.
  unfold build. erewrite bind_return; [| now apply chdir_ok].
  rewrite call_ok; [reflexivity | exact launches_return |].
  vm_compute; discriminate.
Qed.

Lemma install_run (d : Dirs) (h : list event) :
  install w a d h = (Return tt, rev (installed d) ++ h).
Proof.
  unfold install. erewrite bind_return; [| now apply chdir_ok].
  erewrite bind_return;
    [| apply call_ok; [exact launches_return | vm_compute; discriminate]].
  rewrite call_ok; [reflexivity | exact launches_return |].
  vm_compute; discriminate.
Qed.

(** X9: for every tag, build directory and option set, when every
    directory operation succeeds and every launch returns, the pipeline
    falls through with the traces of the four stages one after the
    other, and each command is launched from the directory meant for
    it: the clone from root, the checkout from the source directory,
    cmake, make, make install and ldconfig from the build directory. *)
Theorem successful_run (h : list event) :
  let d := make_dirs w a in
  let t := fetched a d ++ configured d entries ++ built d ++ installed d in
  pipeline w a d h = (Return tt, rev t ++ h)
  /\ launches None t
     = [ (Some (root d), ["git"; "clone"; "https://github.com/Itseez/opencv.git"]);
         (Some (opencv d), split ("git checkout tags/" ++ tag a)%string);
         (Some (build_ d), split (cmake_call entries));
         (Some (build_ d), ["make"; "-j"; "3"]);
         (Some (build_ d), ["sudo"; "make"; "install"]);
         (Some (build_ d), ["sudo"; "ldconfig"]) ].
Proof.
  intros d t. split.
  - unfold pipeline.
    erewrite bind_return; [| now apply download_source_run].
    erewrite bind_return.
    2:{ apply configure_build_with_ok; auto. }
    erewrite bind_return; [| apply build_run].
    rewrite install_run. unfold t.
    rewrite !rev_app_distr, <- !app_assoc. reflexivity.
  - unfold t, fetched, configured.
    cbn [app launches]. rewrite <- app_assoc, launches_prints. reflexivity.
Qed.

End SuccessfulRun.

Lemma successful_run_witness :
  fst (pipeline (Sample.calm (inr "")) Sample.scenario
         (make_dirs (Sample.calm (inr "")) Sample.scenario) [])
  = Return tt.
Proof.
  destruct (successful_run (Sample.calm (inr "")) Sample.scenario
              DEFAULT_BUILD_OPTIONS) with (h := @nil event) as (E & _).
  - reflexivity.
  - intros h p. now left.
  - reflexivity.
  - reflexivity.
  - now rewrite E.
Defined.

(* ================================================================== *)
(** * Further properties: an options file that is not a mapping *)
(* ================================================================== *)

Section NotAMapping.

Variable w : world.
Variables (a : Namespace) (d : Dirs) (h0 : list event).

Hypothesis makedirs_fine :
  os_makedirs w h0 (build_ d) = None
  \/ os_makedirs w h0 (build_ d) = Some FileExistsError.
Hypothesis chdir_succeeds :
  os_chdir w (Makedirs (build_ d) :: h0) (build_ d) = None.
Hypothesis named : build_options_file a <> "".
Hypothesis there :
  stat_ok w (Chdir (build_ d) :: Makedirs (build_ d) :: h0)
    (build_options_file a) = true.

(** X10: what [configure_build] does with an options file whose JSON is
    not a mapping.  An empty list or string counts as nothing loaded and
    the defaults are used; a non-empty list or string gets past the
    length test and fails on [items] with an [AttributeError], after the
    heading was printed; a number, a boolean or null fails on [len] with
    a [TypeError] before anything is printed.  In neither failure is
    cmake launched.  With the defaults the stage returns when the cmake
    launch does. *)
Theorem options_file_not_a_mapping :
  let h := Chdir (build_ d) :: Makedirs (build_ d) :: h0 in
  (json_load w h (build_options_file a) = inr (PySized 0) ->
   snd (configure_build w a d h0)
   = rev (configured d DEFAULT_BUILD_OPTIONS) ++ h0
   /\ (subprocess_call w (rev (configuring d DEFAULT_BUILD_OPTIONS) ++ h0)
         (split (cmake_call DEFAULT_BUILD_OPTIONS)) = None ->
       configure_build w a d h0
       = (Return tt, rev (configured d DEFAULT_BUILD_OPTIONS) ++ h0)))
  /\ (forall n,
         json_load w h (build_options_file a) = inr (PySized (S n)) ->
         configure_build w a d h0
         = (Raise AttributeError,
            Print "Building OpenCV with the following options:" :: h))
  /\ (json_load w h (build_options_file a) = inr PyUnsized ->
      configure_build w a d h0 = (Raise TypeError, h)).
Proof.
  intros h.
  split; [| split].
  - intros H.
    assert (E : load_build_options w a h
                = (Return (PyDict DEFAULT_BUILD_OPTIONS), h)).
    { unfold load_build_options, bind, os_path_exists, open_json_load.
      destruct (build_options_file a) as [| c f]; [contradiction |].
      fold h in there. now rewrite there, H. }
    split.
    + now rewrite (configure_build_with w a d h0 makedirs_fine chdir_succeeds
                     DEFAULT_BUILD_OPTIONS E).
    + intros L. now apply configure_build_with_ok.
  - intros n H. rewrite configure_build_to_load; auto. fold h.
    unfold load_build_options, bind, os_path_exists, open_json_load.
    destruct (build_options_file a) as [| c f]; [contradiction |].
    fold h in there. now rewrite there, H.
  - intros H. rewrite configure_build_to_load; auto. fold h.
    unfold load_build_options, bind, os_path_exists, open_json_load.
    destruct (build_options_file a) as [| c f]; [contradiction |].
    fold h in there. now rewrite there, H.
Qed.

End NotAMapping.

Lemma options_file_not_a_mapping_witness :
  fst (configure_build (Sample.with_file (inr (PySized 2)))
         (Sample.forced "options.json")
         (make_dirs (Sample.with_file (inr (PySized 2)))
            (Sample.forced "options.json")) [])
  = Raise AttributeError.
Proof.
  destruct (options_file_not_a_mapping
              (Sample.with_file (inr (PySized 2)))
              (Sample.forced "options.json")
              (make_dirs (Sample.with_file (inr (PySized 2)))
                 (Sample.forced "options.json"))
              [] (or_intror eq_refl) eq_refl)
    as (_ & H & _).
  - discriminate.
  - reflexivity.
  - now rewrite (H 1 eq_refl).
Defined.

(* ================================================================== *)
(** * Further properties: the directories are nested *)
(* ================================================================== *)

Lemma prefix_append (s x : string) : prefix s (s ++ x) = true.
Proof.
  induction s as [| c s IH]; [now destruct x |]. simpl.
  destruct (ascii_dec c c); [exact IH | contradiction].
Qed.

Lemma length_append (s x : string) :
  String.length (s ++ x) = String.length s + String.length x.
Proof. induction s as [| c s IH]; simpl; [reflexivity | now rewrite IH]. Qed.

Lemma path_join_extends (r : string) (c : ascii) (b : string) :
  c <> "/"%char ->
  exists x, x <> EmptyString /\ path_join r (String c b) = (r ++ x)%string.
Proof.
  intros Hc.
  assert (E : path_join r (String c b)
              = match r with
                | EmptyString => String c b
                | _ => if endswith_sep r then (r ++ String c b)%string
                       else (r ++ "/" ++ String c b)%string
                end).
  { unfold path_join.
    destruct c as [[] [] [] [] [] [] [] []]; try reflexivity.
    now contradiction Hc. }
  rewrite E. destruct r as [| c' r].
  - now exists (String c b).
  - destruct (endswith_sep (String c' r)).
    + now exists (String c b).
    + now exists ("/" ++ String c b)%string.
Qed.

(** X11: for every build directory, whatever its real path (the
    file-system root and the empty string included), root is a proper
    prefix of the source directory and the source directory a proper
    prefix of the build directory; the three paths are pairwise
    different. *)
Theorem nested_directories (w : world) (a : Namespace) :
  let d := make_dirs w a in
  prefix (root d) (opencv d) = true
  /\ prefix (opencv d) (build_ d) = true
  /\ String.length (root d) < String.length (opencv d)
  /\ String.length (opencv d) < String.length (build_ d)
  /\ root d <> opencv d /\ opencv d <> build_ d /\ root d <> build_ d.
Proof.
  intros d. unfold d, make_dirs. cbn [root opencv build_].
  destruct (path_join_extends (realpath w (build_dir a)) "o" "pencv")
    as (x & Hx & ->); [discriminate |].
  destruct (path_join_extends (realpath w (build_dir a) ++ x) "b" "uild")
    as (y & Hy & ->); [discriminate |].
  assert (Lx : 0 < String.length x) by (destruct x; [contradiction | simpl; lia]).
  assert (Ly : 0 < String.length y) by (destruct y; [contradiction | simpl; lia]).
  assert (L1 : String.length (realpath w (build_dir a))
               < String.length (realpath w (build_dir a) ++ x))
    by (rewrite length_append; lia).
  assert (L2 : String.length (realpath w (build_dir a) ++ x)
               < String.length ((realpath w (build_dir a) ++ x) ++ y))
    by (rewrite (length_append (_ ++ x) y); lia).
  repeat split; try apply prefix_append; auto;
    intros E; rewrite <- E in *; lia.
Qed.

(* ================================================================== *)
(** * Further properties: the command line *)
(* ================================================================== *)

Lemma option_classified (tok : string) (o : option_name) :
  option_of tok = Some o -> classify tok = IsOption o.
Proof. intros H. unfold classify. now rewrite H. Qed.

(** Once a positional argument was seen the parse cannot succeed. *)
Lemma extras_are_fatal (n : nat) :
  forall argv ns a,
    length argv <= n -> parse_loop ns true argv <> Parsed a.
Proof.
  induction n as [| n IH]; intros argv ns a Hlen.
  - destruct argv; [discriminate | simpl in Hlen; lia].
  - destruct argv as [| tok rest]; [discriminate |].
    simpl in Hlen. cbn [parse_loop].
    destruct (classify tok) as [[] | |]; try discriminate;
      try (apply IH; lia);
      (destruct rest as [| v rest]; [discriminate |]);
      (destruct (classify v); try discriminate);
      apply IH; simpl in Hlen; lia.
Qed.





Lemma missing_value (n : nat) :
  forall argv ns extras tok o a,
    length argv <= n ->
    option_of tok = Some o -> takes_value o = true ->
    parse_loop ns extras (argv ++ [tok]) <> Parsed a.
Proof.
  induction n as [| n IH]; intros argv ns extras tok o a Hlen Ho Hv.
  - destruct argv; [| simpl in Hlen; lia].
    cbn [app parse_loop]. rewrite (option_classified _ _ Ho).
    destruct o; discriminate.
  - destruct argv as [| t rest].
    { cbn [app parse_loop]. rewrite (option_classified _ _ Ho).
      destruct o; discriminate. }
    simpl in Hlen. cbn [app parse_loop].
    destruct (classify t) as [[] | |]; try discriminate;
      try (eapply IH; eauto; lia);
      (destruct rest as [| v rest];
       [ cbn [app]; rewrite (option_classified _ _ Ho); discriminate |]);
      cbn [app]; (destruct (classify v); try discriminate);
      (eapply IH; eauto; simpl in Hlen; lia).
Qed.

(** X13: a command line that ends in a valued option without its value
    never yields a namespace. *)
Theorem value_required (w : world) (argv : list string) (tok : string)
  (o : option_name) (a : Namespace) :
  option_of tok = Some o -> takes_value o = true ->
  parse_command_line_args w (argv ++ [tok]) <> Parsed a.
Proof.
  intros Ho Hv. unfold parse_command_line_args.
  destruct (existsb is_other (argv ++ [tok])); [discriminate |].
  now apply (missing_value (length argv)) with (o := o).
Qed.

Lemma value_required_witness :
  option_of "--build-dir" = Some OptBuildDir
  /\ parse_command_line_args (Sample.calm (inr "")) ["-f"; "--build-dir"]
     <> Parsed (defaults "/home/user").
Proof.
  split; [reflexivity |].
  exact (value_required (Sample.calm (inr "")) ["-f"] "--build-dir"
           OptBuildDir (defaults "/home/user") eq_refl eq_refl).
Defined.

Lemma values_follow_options (n : nat) :
  forall argv ns a pre v post,
    length argv <= n ->
    parse_loop ns false argv = Parsed a ->
    argv = pre ++ v :: post ->
    classify v = IsArgument ->
    exists pre' tok o,
      pre = pre' ++ [tok] /\ option_of tok = Some o /\ takes_value o = true.
Proof.
  induction n as [| n IH]; intros argv ns a pre v post Hlen H E Hv.
  - subst argv. rewrite length_app in Hlen. simpl in Hlen. lia.
  - destruct argv as [| t rest]; [now destruct pre |].
    simpl in Hlen. cbn [parse_loop] in H.
    destruct pre as [| t' pre]; cbn [app] in E; injection E as <- E.
    + rewrite Hv in H. now apply (extras_are_fatal (length rest)) in H.
    + destruct (classify t) as [o | |] eqn:Ht; try discriminate.
      * assert (Hflag :
                  forall ns', parse_loop ns' false rest = Parsed a ->
                  exists pre' tok o0,
                    t :: pre = pre' ++ [tok] /\ option_of tok = Some o0
                    /\ takes_value o0 = true).
        { intros ns' H'.
          destruct (IH rest ns' a pre v post ltac:(lia) H' E Hv)
            as (pre' & tok & o0 & -> & Ho & Hval).
          now exists (t :: pre'), tok, o0. }
        assert (Hval :
                  takes_value o = true ->
                  match rest with
                  | [] => UsageError
                  | v0 :: rest' =>
                      match classify v0 with
                      | IsOption _ => UsageError
                      | IsArgument => parse_loop (store o v0 ns) false rest'
                      | IsOther => Unmodelled
                      end
                  end = Parsed a ->
                  exists pre' tok o0,
                    t :: pre = pre' ++ [tok] /\ option_of tok = Some o0
                    /\ takes_value o0 = true).
        { intros Hval H'. destruct rest as [| v0 rest']; [discriminate |].
          destruct (classify v0) eqn:Hv0; try discriminate.
          destruct pre as [| v0' pre]; cbn [app] in E; injection E as <- E.
          - exists [], t, o. repeat split; auto.
            now apply classify_option.
          - destruct (IH rest' _ a pre v post ltac:(simpl in Hlen; lia) H' E Hv)
              as (pre' & tok & o0 & -> & Ho & Hval').
            now exists (t :: v0 :: pre'), tok, o0. }
        destruct o; try discriminate; eauto.
      * now apply (extras_are_fatal (length rest)) in H.
Qed.

(** X14: the script takes no positional arguments: on a command line
    that parses, every token that is not an option string stands right
    after an option that takes a value. *)
Theorem no_positionals (w : world) (pre post : list string) (v : string)
  (a : Namespace) :
  parse_command_line_args w (pre ++ v :: post) = Parsed a ->
  classify v = IsArgument ->
  exists pre' tok o,
    pre = pre' ++ [tok] /\ option_of tok = Some o /\ takes_value o = true.
Proof.
  intros H Hv. unfold parse_command_line_args in H.
  destruct (existsb is_other (pre ++ v :: post)); [discriminate |].
  now apply (values_follow_options (length (pre ++ v :: post))
               (pre ++ v :: post) _ a pre v post (le_n _) H eq_refl).
Qed.

Lemma no_positionals_witness :
  exists pre' tok o,
    ["-f"; "-d"] = pre' ++ [tok]
    /\ option_of tok = Some o /\ takes_value o = true.
Proof.
  apply (no_positionals (Sample.calm (inr "")) ["-f"; "-d"] ["-p"] "/tmp/x"
           (store OptPrereqs ""
              (store OptBuildDir "/tmp/x"
                 (store OptForce "" (defaults "/home/user")))));
    reflexivity.
Defined.
